(** * conrad.utils: scoped PSRAD symlinks and the netCDF timestep append

    A shallow embedding of [src/conrad/utils.py].  Python code that touches
    the process environment, the working directory, the logger or a netCDF
    file is written in a small state-and-exception monad; the operating
    system and the netCDF4 library are modelled by the primitives the source
    calls ([os.environ], [os.path.isfile], [os.path.join], [os.symlink],
    [os.remove], [Dataset.__getitem__], [Variable.__setitem__]).

    What the model keeps of the outside world:
    - the working directory is a finite map from the path strings the
      process uses to directory entries (regular file, directory, symbolic
      link with its target); paths are not normalised, and permissions and
      other kernel errors are left out;
    - [os.path.isfile] follows symbolic links, up to the kernel's limit, and
      answers [False] when that fails;
    - every filesystem call and every log record is appended to a trace, so
      that the order of effects can be stated;
    - a netCDF file is its dimensions (length, unlimited or not) and its
      variables (dimension names, cells by index tuple); a file has only its
      root group, and values are of an arbitrary type since the code only
      stores them;
    - opening a file in append mode creates it when it is missing, a name
      given to [Dataset.__getitem__] is resolved as a path, and an unlimited
      dimension grows with what is written along it. *)

From stdpp Require Import base gmap strings list.

(** ** Exceptions and the state-and-exception monad *)

(** The Python exceptions the modelled code can meet.  [OtherError] stands for
    any other exception, raised by a wrapped callable or by a library, under
    the name of its class. *)
Inductive exn : Type :=
| KeyError (key : string)
| IndexError (what : string)
| ValueError (what : string)
| FileExistsError (path : string)
| FileNotFoundError (path : string)
| IsADirectoryError (path : string)
| OtherError (name : string).

#[global] Instance exn_eq_dec : EqDecision exn.
Proof. solve_decision. Defined.

(** A Python computation either returns a value or raises. *)
Inductive outcome (A : Type) : Type :=
| Return (a : A)
| Raise (e : exn).
Arguments Return {A} a.
Arguments Raise {A} e.

(** State changes made before an exception is raised are kept, as in Python:
    the state is threaded outside the outcome. *)
Definition py (S A : Type) : Type := S → outcome A * S.

#[global] Instance py_ret {S} : MRet (py S) := λ A a s, (Return a, s).
#[global] Instance py_bind {S} : MBind (py S) := λ A B k c s,
  match c s with
  | (Return a, s') => k a s'
  | (Raise e, s') => (Raise e, s')
  end.

Definition raise {S A} (e : exn) : py S A := λ s, (Raise e, s).

(** [try: c  except: h e] where the handler receives the exception. *)
Definition try_except {S A} (c : py S A) (h : exn → py S A) : py S A := λ s,
  match c s with
  | (Return a, s') => (Return a, s')
  | (Raise e, s') => h e s'
  end.

(** [for x in l: body x]; an exception leaves the loop at once. *)
Fixpoint for_in {S A} (l : list A) (body : A → py S unit) : py S unit :=
  match l with
  | [] => mret tt
  | x :: l' => body x ;; for_in l' body
  end.

(** ** The process: environment, working directory, logger *)

(** A directory entry.  Paths are the strings the process hands to the
    operating system, relative to the current working directory or absolute;
    they are compared as written. *)
Inductive node : Type :=
| RegularFile (content : string)
| Directory
| Symlink (target : string).

#[global] Instance node_eq_dec : EqDecision node.
Proof. solve_decision. Defined.

Inductive level : Type := DEBUG | ERROR.

#[global] Instance level_eq_dec : EqDecision level.
Proof. solve_decision. Defined.

(** The filesystem calls issued by the process, in order. *)
Inductive syscall : Type :=
| sys_stat (path : string)
| sys_symlink (src dst : string)
| sys_unlink (path : string).

#[global] Instance syscall_eq_dec : EqDecision syscall.
Proof. solve_decision. Defined.

Record world : Type := World {
  environ : gmap string string;
  fs : gmap string node;
  log : list (level * string);
  syscalls : list syscall
}.

Definition with_fs (m : gmap string node) (w : world) : world :=
  {| environ := environ w; fs := m; log := log w; syscalls := syscalls w |}.

Definition issue (c : syscall) (w : world) : world :=
  {| environ := environ w; fs := fs w; log := log w;
     syscalls := syscalls w ++ [c] |}.

Definition emit (l : level) (m : string) (w : world) : world :=
  {| environ := environ w; fs := fs w; log := log w ++ [(l, m)];
     syscalls := syscalls w |}.

(** [os.environ[key]] *)
Definition os_environ_getitem (key : string) : py world string := λ w,
  match environ w !! key with
  | Some v => (Return v, w)
  | None => (Raise (KeyError key), w)
  end.

(** [logger.exception(msg)]: an ERROR record. *)
Definition logger_exception (m : string) : py world unit := λ w,
  (Return tt, emit ERROR m w).

(** [logger.debug(msg)] *)
Definition logger_debug (m : string) : py world unit := λ w,
  (Return tt, emit DEBUG m w).

(** [os.stat] follows symbolic links; the kernel gives up after
    [MAXSYMLINKS] of them. *)
Definition MAXSYMLINKS : nat := 40.

Fixpoint stat_follow (fuel : nat) (m : gmap string node) (p : string)
  : option node :=
  match m !! p with
  | None => None
  | Some (Symlink t) =>
      match fuel with
      | O => None
      | S k => stat_follow k m t
      end
  | Some n => Some n
  end.

Definition isfile (m : gmap string node) (p : string) : bool :=
  match stat_follow MAXSYMLINKS m p with
  | Some (RegularFile _) => true
  | _ => false
  end.

(** [os.path.isfile(path)]: [os.stat] succeeded and found a regular file;
    every [OSError] is answered [False]. *)
Definition os_path_isfile (p : string) : py world bool := λ w,
  (Return (isfile (fs w) p), issue (sys_stat p) w).

Definition sep : string := "/".

(** [s.endswith(sep)] *)
Fixpoint endswith_sep (s : string) : bool :=
  match s with
  | EmptyString => false
  | String c r =>
      match r with
      | EmptyString => String.eqb (String c EmptyString) sep
      | String _ _ => endswith_sep r
      end
  end.

(** [os.path.join(a, b)] of [posixpath]. *)
Definition os_path_join (a b : string) : string :=
  if String.prefix sep b then b
  else if String.eqb a "" || endswith_sep a then a +:+ b
  else a +:+ sep +:+ b.

(** [os.symlink(src, dst)]: fails when [dst] names any entry. *)
Definition os_symlink (src dst : string) : py world unit := λ w,
  let w' := issue (sys_symlink src dst) w in
  match fs w !! dst with
  | Some _ => (Raise (FileExistsError dst), w')
  | None => (Return tt, with_fs (<[dst := Symlink src]> (fs w)) w')
  end.

(** [os.remove(path)]: unlinks a file or a link, never a directory. *)
Definition os_remove (p : string) : py world unit := λ w,
  let w' := issue (sys_unlink p) w in
  match fs w !! p with
  | None => (Raise (FileNotFoundError p), w')
  | Some Directory => (Raise (IsADirectoryError p), w')
  | Some _ => (Return tt, with_fs (delete p (fs w)) w')
  end.

(** ** [class PsradSymlinks] *)

Record PsradSymlinks : Type := {
  _psrad_path : string;
  _psrad_files : list string;
  _created_files : list string
}.

(** Methods run on the instance and the process together. *)
Abbreviation method A := (py (PsradSymlinks * world) A).

(** A call that only concerns the process. *)
Definition os_call {A} (c : py world A) : method A := λ '(self, w),
  let '(r, w') := c w in (r, (self, w')).

(** [self.field] *)
Definition getattr {A} (field : PsradSymlinks → A) : method A :=
  λ '(self, w), (Return (field self), (self, w)).

(** [self._created_files.append(f)] *)
Definition _created_files_append (f : string) : method unit := λ '(self, w),
  (Return tt,
   ({| _psrad_path := _psrad_path self;
       _psrad_files := _psrad_files self;
       _created_files := _created_files self ++ [f] |}, w)).

Definition psrad_files : list string :=
  [ "ECHAM6_CldOptProps.nc"; "rrtmg_lw.nc"; "rrtmg_sw.nc"; "libpsrad.so.1" ].

Definition __init__ : py world PsradSymlinks :=
  path ← try_except (os_environ_getitem "PSRAD_PATH")
         (λ e, match e with
               | KeyError _ =>
                   logger_exception "Path to PSRAD directory not set." ;;
                   raise e
               | _ => raise e
               end);
  mret {| _psrad_path := path;
          _psrad_files := psrad_files;
          _created_files := [] |}.

Definition __enter___body (f : string) : method unit :=
  present ← os_call (os_path_isfile f);
  if negb present then
    root ← getattr _psrad_path;
    os_call (os_symlink (os_path_join root f) f) ;;
    _created_files_append f ;;
    os_call (logger_debug ("Create symlink " +:+ f))
  else mret tt.

Definition __enter__ : method unit :=
  files ← getattr _psrad_files;
  for_in files __enter___body.

(** [__exit__] ignores the exception details it is given and returns
    [None]. *)
Definition __exit__ : method unit :=
  created ← getattr _created_files;
  for_in created (λ f, os_call (os_remove f)).

(** The loop of [__exit__] over the record [l]. *)
Definition remove_loop (l : list string) : method unit :=
  for_in l (λ f, os_call (os_remove f)).

(** ** The [with] statement and the decorator *)

(** [with PsradSymlinks(): body].  An exception of the constructor or of
    [__enter__] leaves the statement without [__exit__]; after the body,
    [__exit__] is called whether the body returned or raised; its [None]
    does not suppress an exception of the body, and an exception of
    [__exit__] itself replaces the body's outcome. *)
Definition with_PsradSymlinks {A} (body : py world A) : py world A := λ w0,
  match __init__ w0 with
  | (Raise e, w1) => (Raise e, w1)
  | (Return self, w1) =>
      match __enter__ (self, w1) with
      | (Raise e, (_, w2)) => (Raise e, w2)
      | (Return _, (self2, w2)) =>
          let '(r, w3) := body w2 in
          match __exit__ (self2, w3) with
          | (Raise e', (_, w4)) => (Raise e', w4)
          | (Return _, (_, w4)) => (r, w4)
          end
      end
  end.

(** The [func_wrapper] that [with_psrad_symlinks(func)] returns; positional
    and keyword arguments are passed as one value. *)
Definition func_wrapper {A B} (func : A → py world B) (args : A) : py world B :=
  with_PsradSymlinks (func args).

Definition with_psrad_symlinks {A B} (func : A → py world B) : A → py world B :=
  func_wrapper func.

(** ** Closed forms used in the statements *)

(** The instance with resource root [root], required names [files] and
    created-aliases record [created]. *)
Definition provisioner (root : string) (files created : list string)
  : PsradSymlinks :=
  {| _psrad_path := root; _psrad_files := files; _created_files := created |}.

(** The alias [__enter__] creates for [f]. *)
Definition alias (root f : string) : node := Symlink (os_path_join root f).

(** The names of [files] that have no entry in [m]. *)
Definition missing (m : gmap string node) (files : list string) : list string :=
  filter (λ f, m !! f = None) files.

(** The working directory after the aliases of [l] are created, and after
    the names of [l] are unlinked. *)
Definition link_all (root : string) (l : list string) (m : gmap string node)
  : gmap string node :=
  foldl (λ acc f, <[f := alias root f]> acc) m l.

Definition unlink_all (l : list string) (m : gmap string node)
  : gmap string node :=
  foldl (λ acc f, delete f acc) m l.

(** The filesystem calls of an acquisition that checks every name of [files]
    and links those missing from [m]. *)
Definition enter_trace (root : string) (m : gmap string node)
    (files : list string) : list syscall :=
  files ≫= λ f,
    sys_stat f ::
    if decide (m !! f = None) then [sys_symlink (os_path_join root f) f]
    else [].

(** An entry [os.remove] can unlink. *)
Definition removable (m : gmap string node) (p : string) : Prop :=
  ∃ n, m !! p = Some n ∧ n ≠ Directory.




(** ** Sample processes *)

(** [PSRAD_PATH=/data/psrad], empty working directory. *)
Definition w_empty : world :=
  World {[ "PSRAD_PATH" := "/data/psrad" ]} ∅ [] [].

(** As [w_empty], with [rrtmg_lw.nc] already there as a real file. *)
Definition w_lw_present : world :=
  World {[ "PSRAD_PATH" := "/data/psrad" ]}
        {[ "rrtmg_lw.nc" := RegularFile "lw" ]} [] [].


(** As [w_empty], with a directory named [rrtmg_lw.nc]. *)
Definition w_dir_second : world :=
  World {[ "PSRAD_PATH" := "/data/psrad" ]}
        {[ "rrtmg_lw.nc" := Directory ]} [] [].

(** As [w_empty], without the [PSRAD_PATH] setting. *)
Definition w_unset : world := World ∅ ∅ [] [].

(** ** Callables used as inputs *)

(** [def work(): os.remove('rrtmg_lw.nc'); return 7] *)
Definition unlink_lw : unit → py world nat :=
  λ _, os_remove "rrtmg_lw.nc" ;; mret 7.

(** [os.remove('ECHAM6_CldOptProps.nc'); raise RuntimeError] *)
Definition unlink_then_fail : py world nat :=
  os_remove "ECHAM6_CldOptProps.nc" ;; raise (OtherError "RuntimeError").

(** [def work(n): return n + 1], which leaves the process alone. *)
Definition successor : nat → py world nat := λ n, mret (S n).

(** The wrapped callable in the words of the specification: when the wrapped
    call builds its provisioner and acquires, and [func] then returns [X],
    the wrapped call returns [X] and no created alias exists afterwards. *)
Definition wrapper_transparent {A B} (func : A → py world B) (args : A)
    (w : world) : Prop :=
  ∀ self0 w0 self1 w1 X w2,
    __init__ w = (Return self0, w0) →
    __enter__ (self0, w0) = (Return tt, (self1, w1)) →
    func args w1 = (Return X, w2) →
    (with_psrad_symlinks func args w).1 = Return X ∧
    ∀ f, f ∈ _created_files self1 →
         fs (with_psrad_symlinks func args w).2 !! f = None.

(** Release in the words of the specification: however the protected work
    leaves the scope, the removal of every recorded alias is performed, that
    is, [os.remove] is called on it after the work. *)
Definition release_performed {A} (body : py world A) (w : world) : Prop :=
  ∀ self0 w0 self1 w1,
    __init__ w = (Return self0, w0) →
    __enter__ (self0, w0) = (Return tt, (self1, w1)) →
    ∀ f, f ∈ _created_files self1 →
         sys_unlink f ∈ drop (length (syscalls (body w1).2))
                             (syscalls (with_PsradSymlinks body w).2).

(** The record after release in the words of the specification: it holds no
    entries. *)
Definition record_drained (self : PsradSymlinks) (w : world) : Prop :=
  _created_files (__exit__ (self, w)).2.1 = [].

(** ** Paths inside a dataset *)

(** [path.split('/')] *)
Fixpoint split_sep (s : string) : list string :=
  match s with
  | EmptyString => [EmptyString]
  | String c r =>
      if String.eqb (String c EmptyString) sep then EmptyString :: split_sep r
      else match split_sep r with
           | h :: tl => String c h :: tl
           | [] => [String c EmptyString]
           end
  end.

(** ['/'.join(comps)] *)
Fixpoint join_sep (l : list string) : string :=
  match l with
  | [] => ""
  | x :: r => match r with [] => x | _ :: _ => x +:+ sep +:+ join_sep r end
  end.

(** One turn of the loop of [posixpath.normpath] over the components. *)
Definition normpath_step (initial_slashes : nat) (new_comps : list string)
    (comp : string) : list string :=
  if bool_decide (comp = "" ∨ comp = ".") then new_comps
  else if bool_decide (comp ≠ ".." ∨ (initial_slashes = 0 ∧ new_comps = []) ∨
                       last new_comps = Some "..")
       then new_comps ++ [comp]
       else removelast new_comps.

(** [posixpath.normpath(path)] *)
Definition normpath (path : string) : string :=
  if bool_decide (path = "") then "."
  else
    let initial_slashes :=
      if String.prefix sep path then
        if String.prefix (sep +:+ sep) path &&
           negb (String.prefix (sep +:+ sep +:+ sep) path) then 2
        else 1
      else 0 in
    let comps := foldl (normpath_step initial_slashes) [] (split_sep path) in
    let p := String.concat "" (replicate initial_slashes sep) +:+
             join_sep comps in
    if bool_decide (p = "") then "." else p.

(** What [Dataset.__getitem__] makes of a name: the path is normalised, its
    last component is the name looked up and the non-empty components before
    it are the groups to go through. *)
Definition path_lookup (name : string) : list string * string :=
  let comps := split_sep (normpath name) in
  (filter (λ g, g ≠ "") (removelast comps), default "" (last comps)).

(** Whether a name contains the separator. *)
Fixpoint has_sep (s : string) : bool :=
  match s with
  | EmptyString => false
  | String c r => String.eqb (String c EmptyString) sep || has_sep r
  end.

(** ** netCDF4 datasets *)

Section netcdf.
Context {value : Type}.

(** A dimension: its current length and whether it is unlimited. *)
Record Dimension : Type := {
  dim_size : nat;
  isunlimited : bool
}.

(** A variable: the names of its dimensions, in order, and the cells that
    hold a value, by index tuple; the other cells are missing data. *)
Record NcVariable : Type := {
  var_dimensions : list string;
  var_data : gmap (list nat) value
}.

Record Dataset : Type := {
  dimensions : gmap string Dimension;
  variables : gmap string NcVariable
}.

(** The right-hand side of an assignment: a number or a one-dimensional
    array. *)
Inductive ndarray : Type :=
| scalar (v : value)
| array (l : list value).

(** A value of the [data] dictionary: an array, or an object whose
    [values] attribute holds the array. *)
Inductive payload : Type :=
| PlainArray (x : ndarray)
| HasValues (x : ndarray).

(** The files on disk and the records of the root logger. *)
Record store : Type := {
  nc_files : gmap string Dataset;
  root_log : list (level * string)
}.

(** All index tuples of an array of the given shape, in row-major order. *)
Fixpoint cells (shape : list nat) : list (list nat) :=
  match shape with
  | [] => [[]]
  | n :: s => j ← seq 0 n; (λ c, j :: c) <$> cells s
  end.

(** Whether [x] can be broadcast to an array of the given shape, as numpy
    does: a number always, a one-dimensional array when it has one element or
    as many as the last dimension. *)
Definition broadcastable (shape : list nat) (x : ndarray) : bool :=
  match x with
  | scalar _ => true
  | array l =>
      bool_decide (length l = 1) || bool_decide (last shape = Some (length l))
  end.

(** The element of [x], broadcast, that lands in the cell [c]. *)
Definition element (x : ndarray) (c : list nat) : option value :=
  match x with
  | scalar v => Some v
  | array l =>
      if bool_decide (length l = 1) then l !! 0
      else j ← last c; l !! j
  end.

(** Store in cell [c] of row [t] what [x] has for it. *)
Definition put (t : nat) (x : ndarray) (c : list nat)
    (d : gmap (list nat) value) : gmap (list nat) value :=
  match element x c with
  | Some v => <[t :: c := v]> d
  | None => d
  end.

(** A dimension after index [t] along it has been written. *)
Definition grow (t : nat) (d : Dimension) : Dimension :=
  {| dim_size := dim_size d `max` S t; isunlimited := isunlimited d |}.

(** [nc.dimensions[name].size] *)
Definition dimension_size (name : string) : py Dataset nat := λ ds,
  match dimensions ds !! name with
  | Some d => (Return (dim_size d), ds)
  | None => (Raise (KeyError name), ds)
  end.

(** [nc[name]] as netCDF4 has it, for a dataset with only its root group:
    the path is normalised, a group to go through is a [KeyError], and the
    last component is looked up among the variables, an [IndexError] when it
    is not one of them. *)
Definition dataset_getitem_by_path (name : string) : py Dataset NcVariable :=
  λ ds,
  match path_lookup name with
  | (g :: _, _) => (Raise (KeyError g), ds)
  | ([], lastname) =>
      match variables ds !! lastname with
      | Some v => (Return v, ds)
      | None => (Raise (IndexError lastname), ds)
      end
  end.

(** [nc[name]] with the lookup of a name of a variable taken first.  The
    names in a file are not empty and contain no separator, and such a name
    is a path of one component: on a dataset with such names this is
    [dataset_getitem_by_path] (lemma [dataset_getitem_by_path_eq]). *)
Definition dataset_getitem (name : string) : py Dataset NcVariable := λ ds,
  match variables ds !! name with
  | Some v => (Return v, ds)
  | None => dataset_getitem_by_path name ds
  end.

(** The number of indices a full slice [:] covers along a dimension other
    than the first when [x] is assigned: the current length of the
    dimension, except that an unlimited dimension takes the length of the
    array assigned (the source assigns an array only to a variable over
    exactly two dimensions), and one cell for a number when it is still
    empty. *)
Definition slice_length (x : ndarray) (d : Dimension) : nat :=
  if isunlimited d then
    match x with
    | array l => length l
    | scalar _ => if bool_decide (dim_size d = 0) then 1 else dim_size d
    end
  else dim_size d.

(** A dimension after [n] indices along it have been written. *)
Definition lengthen (n : nat) (d : Dimension) : Dimension :=
  {| dim_size := dim_size d `max` n; isunlimited := isunlimited d |}.

(** [nc.variables[name][t] = x] when [slices = 0] and
    [nc.variables[name][t, :] = x] when [slices = 1]: index [t] along the
    first dimension and a full slice along the others.  Writing past the end
    of an unlimited dimension extends it; an index past the end of a
    dimension of fixed length is refused by the netCDF library with a
    [RuntimeError]. *)
Definition variable_setitem (name : string) (t slices : nat) (x : ndarray)
  : py Dataset unit := λ ds,
  match variables ds !! name with
  | None => (Raise (KeyError name), ds)
  | Some v =>
      match var_dimensions v with
      | [] => (Raise (IndexError "too many indices"), ds)
      | d0 :: rest =>
          if bool_decide (length rest < slices) then
            (Raise (IndexError "too many indices"), ds)
          else
            match dimensions ds !! d0,
                  mapM (λ d, dimensions ds !! d) rest with
            | Some dim0, Some dims =>
                if bool_decide (t < dim_size dim0) || isunlimited dim0 then
                  let shape := slice_length x <$> dims in
                  if broadcastable shape x then
                    (Return tt,
                     {| dimensions :=
                          foldr (λ dn acc, alter (lengthen dn.2) dn.1 acc)
                            (<[d0 := grow t dim0]> (dimensions ds))
                            (zip rest shape);
                        variables :=
                          <[name :=
                              {| var_dimensions := var_dimensions v;
                                 var_data := foldr (put t x) (var_data v)
                                               (cells shape) |}]>
                            (variables ds) |})
                  else (Raise (ValueError "shape mismatch"), ds)
                else
                  (Raise (OtherError "RuntimeError"), ds)
            | _, _ => (Raise (KeyError d0), ds)
            end
      end
  end.

(** A dictionary kept as its items in insertion order. *)
Fixpoint dict_lookup (data : list (string * payload)) (var : string)
  : option payload :=
  match data with
  | [] => None
  | (k, x) :: rest => if decide (k = var) then Some x else dict_lookup rest var
  end.

(** [data[var]] *)
Definition dict_getitem (data : list (string * payload)) (var : string)
  : py Dataset payload := λ ds,
  match dict_lookup data var with
  | Some x => (Return x, ds)
  | None => (Raise (KeyError var), ds)
  end.

(** A file just created: no dimension, no variable. *)
Definition empty_dataset : Dataset := {| dimensions := ∅; variables := ∅ |}.

(** [with Dataset(filename, 'a') as nc: body]: mode ['a'] opens an existing
    file and creates a missing one; the file is written back when the block
    is left, also by an exception. *)
Definition with_Dataset {A} (filename : string)
    (body : py (Dataset * list (level * string)) A) : py store A := λ st,
  let ds := default empty_dataset (nc_files st !! filename) in
  let '(r, (ds', lg)) := body (ds, root_log st) in
  (r, {| nc_files := <[filename := ds']> (nc_files st); root_log := lg |}).

(** An operation on the open dataset, within the block. *)
Definition nc_call {A} (c : py Dataset A)
  : py (Dataset * list (level * string)) A := λ '(ds, lg),
  let '(r, ds') := c ds in (r, (ds', lg)).

(** The double-quote character of the log message. *)
Definition dquote : string := String (Ascii.ascii_of_nat 34) EmptyString.

(** [logging.debug(msg)] on the root logger. *)
Definition logging_debug (m : string)
  : py (Dataset * list (level * string)) unit := λ '(ds, lg),
  (Return tt, (ds, lg ++ [(DEBUG, m)])).

(** One iteration of the loop over [data]. *)
Definition append_timestep_netcdf_body (data : list (string * payload))
    (t : nat) (var : string) : py (Dataset * list (level * string)) unit :=
  v ← nc_call (dataset_getitem var);
  if bool_decide (var_dimensions v = ["time"; "plev"]) then
    x ← nc_call (dict_getitem data var);
    match x with
    | HasValues values => nc_call (variable_setitem var t 1 values)
    | PlainArray values => nc_call (variable_setitem var t 1 values)
    end
  else mret tt.

Definition append_timestep_netcdf (filename : string)
    (data : list (string * payload)) (timestamp : value) : py store unit :=
  with_Dataset filename (
    logging_debug ("Append timestep to " +:+ dquote +:+ filename +:+
                   dquote +:+ ".") ;;
    t ← nc_call (dimension_size "time");
    nc_call (variable_setitem "time" t 0 (scalar timestamp)) ;;
    for_in data.*1 (append_timestep_netcdf_body data t)).

(** The array a dictionary value stands for. *)
Definition values_of (x : payload) : ndarray :=
  match x with
  | PlainArray a => a
  | HasValues a => a
  end.

(** The dataset once [timestamp] is stored at index [t] of the time
    variable [v], which lengthens the time dimension to [t + 1]. *)
Definition time_appended (t : nat) (timestamp : value) (v : NcVariable)
    (ds : Dataset) : Dataset :=
  {| dimensions :=
       <["time" := {| dim_size := S t; isunlimited := true |}]> (dimensions ds);
     variables :=
       <["time" := {| var_dimensions := ["time"];
                      var_data := <[[t] := timestamp]> (var_data v) |}]>
         (variables ds) |}.

(** The state of a dataset after row [t] of some of its variables with
    dimensions [(time, plev)], all among [keys], has been assigned: the
    dimensions other than [plev] are as before, [plev] can only have grown,
    and only if it is unlimited; no variable appears or disappears or changes
    its dimensions, a variable with other dimensions or outside [keys] is as
    before, and only cells of row [t] differ. *)
Definition rows_assigned (t : nat) (keys : list string) (ds ds' : Dataset)
  : Prop :=
  (∀ d, d ≠ "plev" → dimensions ds' !! d = dimensions ds !! d) ∧
  match dimensions ds !! "plev", dimensions ds' !! "plev" with
  | None, None => True
  | Some pd, Some pd' =>
      isunlimited pd' = isunlimited pd ∧ dim_size pd ≤ dim_size pd' ∧
      (isunlimited pd = false → pd' = pd)
  | _, _ => False
  end ∧
  ∀ name,
    match variables ds !! name, variables ds' !! name with
    | None, None => True
    | Some v, Some v' =>
        var_dimensions v' = var_dimensions v ∧
        (var_dimensions v ≠ ["time"; "plev"] ∨ name ∉ keys → v' = v) ∧
        (∀ c, c !! 0 ≠ Some t → var_data v' !! c = var_data v !! c)
    | _, _ => False
    end.

End netcdf.

(** ** A sample file

    A dataset with two time steps, three pressure levels, the time variable,
    a variable [T] over [(time, plev)] and a variable [X] over [(plev,)]. *)

Definition sample_dataset : @Dataset Z :=
  {| dimensions :=
       {[ "time" := {| dim_size := 2; isunlimited := true |};
          "plev" := {| dim_size := 3; isunlimited := false |} ]};
     variables :=
       {[ "time" := {| var_dimensions := ["time"];
                       var_data := {[ [0] := 0%Z; [1] := 6%Z ]} |};
          "T" := {| var_dimensions := ["time"; "plev"];
                    var_data := {[ [0; 0] := 288%Z; [0; 1] := 293%Z;
                                   [0; 2] := 298%Z; [1; 0] := 289%Z;
                                   [1; 1] := 294%Z; [1; 2] := 299%Z ]} |};
          "X" := {| var_dimensions := ["plev"];
                    var_data := {[ [0] := 1000%Z; [1] := 500%Z;
                                   [2] := 100%Z ]} |} ]} |}.

Definition sample_store : @store Z :=
  {| nc_files := {[ "out.nc" := sample_dataset ]}; root_log := [] |}.

Definition sample_data : list (string * @payload Z) :=
  [ ("T", PlainArray (array [290; 295; 300]%Z));
    ("X", HasValues (array [900; 400; 50]%Z)) ].

(** The record [append_timestep_netcdf] logs for [filename]. *)
Definition append_message (filename : string) : level * string :=
  (DEBUG, "Append timestep to " +:+ dquote +:+ filename +:+ dquote +:+ ".").

(** ** More sample inputs *)

(** [PSRAD_PATH=/data/psrad], the four files are in [/data/psrad], and the
    working directory has none of them. *)
Definition w_resources : world :=
  World {[ "PSRAD_PATH" := "/data/psrad" ]}
        {[ "/data/psrad/ECHAM6_CldOptProps.nc" := RegularFile "cld";
           "/data/psrad/rrtmg_lw.nc" := RegularFile "lw";
           "/data/psrad/rrtmg_sw.nc" := RegularFile "sw";
           "/data/psrad/libpsrad.so.1" := RegularFile "so" ]} [] [].

(** [PSRAD_PATH] set to the empty string, empty working directory. *)
Definition w_empty_root : world :=
  World {[ "PSRAD_PATH" := "" ]} ∅ [] [].

(** [def work(): raise RuntimeError] *)
Definition always_fails : unit → py world nat :=
  λ _, raise (OtherError "RuntimeError").

(** The process after the four [stat] calls of an acquisition that finds
    every required name. *)
Definition stats_issued (w : world) : world :=
  {| environ := environ w; fs := fs w; log := log w;
     syscalls := syscalls w ++ (sys_stat <$> psrad_files) |}.

(** A dictionary with a key the sample file has no variable for. *)
Definition sample_data_unknown : list (string * @payload Z) :=
  [ ("T", PlainArray (array [290; 295; 300]%Z));
    ("Q", PlainArray (array [1; 2; 3]%Z));
    ("X", HasValues (array [900; 400; 50]%Z)) ].

(** The sample file without its time dimension. *)
Definition sample_store_no_time : @store Z :=
  {| nc_files :=
       {[ "out.nc" :=
            {| dimensions := delete "time" (dimensions sample_dataset);
               variables := variables sample_dataset |} ]};
     root_log := [] |}.

(** A second time step for the sample file. *)
Definition sample_data_next : list (string * @payload Z) :=
  [ ("T", HasValues (array [291; 296; 301]%Z)) ].

(** The sample file with a time dimension of fixed length. *)
Definition sample_store_fixed : @store Z :=
  {| nc_files :=
       {[ "out.nc" :=
            {| dimensions :=
                 <["time" := {| dim_size := 2; isunlimited := false |}]>
                   (dimensions sample_dataset);
               variables := variables sample_dataset |} ]};
     root_log := [] |}.

(** The implicit claim on the timestamp in its own words: a call that opens
    a file with a time axis writes the timestamp at the next time index, so
    that the time axis is one entry longer afterwards. *)
Definition timestamp_always_written {value : Type} (filename : string)
    (data : list (string * payload)) (timestamp : value) (st : store)
  : Prop :=
  ∀ ds d,
    nc_files st !! filename = Some ds →
    dimensions ds !! "time" = Some d →
    ∃ ds' d',
      nc_files (append_timestep_netcdf filename data timestamp st).2
        !! filename = Some ds' ∧
      dimensions ds' !! "time" = Some d' ∧
      dim_size d' = S (dim_size d).

(** ** Basic facts about the primitives *)

Section primitives.
Implicit Types (m : gmap string node) (p k : string) (w : world).

Lemma stat_follow_insert_fresh fuel m k v p n :
  m !! k = None →
  stat_follow fuel m p = Some n →
  stat_follow fuel (<[k := v]> m) p = Some n.
Proof.
  intros Hk. revert p. induction fuel as [|fuel IH]; intros p; simpl.
  - destruct (m !! p) as [x|] eqn:Hp; [|done].
    assert (k ≠ p) by congruence.
    rewrite lookup_insert_ne, Hp by done. done.
  - destruct (m !! p) as [x|] eqn:Hp; [|done].
    assert (k ≠ p) by congruence.
    rewrite lookup_insert_ne, Hp by done.
    destruct x; auto.
Qed.

Lemma isfile_insert_fresh m k v p :
  m !! k = None → isfile m p = true → isfile (<[k := v]> m) p = true.
Proof.
  unfold isfile. intros Hk Hp.
  destruct (stat_follow MAXSYMLINKS m p) as [n|] eqn:Hs; [|done].
  by rewrite (stat_follow_insert_fresh _ _ _ _ _ _ Hk Hs).
Qed.

Lemma isfile_lookup m p : isfile m p = true → is_Some (m !! p).
Proof.
  unfold isfile, MAXSYMLINKS. simpl.
  destruct (m !! p); [eauto | done].
Qed.

Lemma isfile_absent m p : m !! p = None → isfile m p = false.
Proof.
  intros Hp. destruct (isfile m p) eqn:E; [|done].
  apply isfile_lookup in E as [? ?]. congruence.
Qed.
End primitives.

(** ** [__init__] *)

Lemma init_eq w :
  __init__ w =
    match environ w !! "PSRAD_PATH" with
    | None =>
        (Raise (KeyError "PSRAD_PATH"),
         emit ERROR "Path to PSRAD directory not set." w)
    | Some root => (Return (provisioner root psrad_files []), w)
    end.
Proof.
  unfold __init__, mbind, py_bind, try_except, os_environ_getitem.
  destruct (environ w !! "PSRAD_PATH"); done.
Qed.

(** ** [__enter__] *)

Section enter.
Implicit Types (m : gmap string node) (f p root : string) (w : world)
  (self : PsradSymlinks) (files created : list string).

(** One iteration of the loop of [__enter__], by cases. *)
Lemma enter_body_eq f self w :
  __enter___body f (self, w) =
  let w1 := issue (sys_stat f) w in
  if isfile (fs w) f then (Return tt, (self, w1))
  else
    let w2 := issue (sys_symlink (os_path_join (_psrad_path self) f) f) w1 in
    match fs w !! f with
    | Some _ => (Raise (FileExistsError f), (self, w2))
    | None =>
        (Return tt,
         (provisioner (_psrad_path self) (_psrad_files self)
            (_created_files self ++ [f]),
          emit DEBUG ("Create symlink " +:+ f)
            (with_fs (<[f := alias (_psrad_path self) f]> (fs w)) w2)))
    end.
Proof.
  unfold __enter___body, mbind, py_bind, os_call, os_path_isfile. simpl.
  destruct (isfile (fs w) f); simpl; [done|].
  unfold os_symlink. simpl.
  destruct (fs w !! f); done.
Qed.

Lemma missing_cons_present m f files :
  is_Some (m !! f) → missing m (f :: files) = missing m files.
Proof.
  intros [n Hn]. unfold missing. rewrite filter_cons.
  destruct (decide (m !! f = None)); [congruence | done].
Qed.

Lemma missing_cons_absent m f files :
  m !! f = None → missing m (f :: files) = f :: missing m files.
Proof.
  intros Hn. unfold missing. rewrite filter_cons.
  destruct (decide (m !! f = None)); [done | congruence].
Qed.

Lemma missing_insert_fresh m k v files :
  k ∉ files → missing (<[k := v]> m) files = missing m files.
Proof.
  unfold missing. induction files as [|x l IH]; intros Hk; [done|].
  apply not_elem_of_cons in Hk as [Hx Hl].
  rewrite !filter_cons, lookup_insert_ne, IH by done. done.
Qed.

Lemma enter_trace_insert_fresh root m k v files :
  k ∉ files → enter_trace root (<[k := v]> m) files = enter_trace root m files.
Proof.
  unfold enter_trace. induction files as [|x l IH]; intros Hk; [done|].
  apply not_elem_of_cons in Hk as [Hx Hl].
  rewrite !bind_cons, lookup_insert_ne, IH by done. done.
Qed.

(** The loop of [__enter__] when every required name is either free or
    resolves to a regular file. *)
Lemma enter_loop_ok root pf files :
  ∀ created w,
    NoDup files →
    (∀ f, f ∈ files → fs w !! f = None ∨ isfile (fs w) f = true) →
    for_in files __enter___body (provisioner root pf created, w) =
    (Return tt,
     (provisioner root pf (created ++ missing (fs w) files),
      {| environ := environ w;
         fs := link_all root (missing (fs w) files) (fs w);
         log := log w ++
                ((λ f, (DEBUG, "Create symlink " +:+ f)) <$>
                 missing (fs w) files);
         syscalls := syscalls w ++ enter_trace root (fs w) files |})).
Proof.
  induction files as [|x l IH]; intros created w Hnd Hok.
  - destruct w. simpl. unfold mret, py_ret. by rewrite !app_nil_r.
  - apply NoDup_cons in Hnd as [Hx Hnd].
    change (for_in (x :: l) __enter___body)
      with (__enter___body x ;; for_in l __enter___body).
    unfold mbind, py_bind at 1. rewrite enter_body_eq. cbn zeta.
    destruct (Hok x) as [Habs|Hfile]; [left|..].
    + rewrite (isfile_absent _ _ Habs), Habs. cbn [_psrad_path _psrad_files _created_files provisioner].
      rewrite IH; [|done|].
      * cbn [fs environ log syscalls emit with_fs issue].
        rewrite missing_insert_fresh, enter_trace_insert_fresh by done.
        rewrite missing_cons_absent by done.
        unfold enter_trace at 2. rewrite bind_cons.
        rewrite decide_True by done.
        rewrite <- !(assoc_L (++)). done.
      * cbn [fs environ log syscalls emit with_fs issue].
        intros f Hf. assert (x ≠ f) by (intros ->; done).
        destruct (Hok f) as [?|?]; [by right| |].
        -- left. by rewrite lookup_insert_ne.
        -- right. by apply isfile_insert_fresh.
    + rewrite Hfile.
      rewrite IH; [|done|].
      * cbn [fs environ log syscalls emit with_fs issue].
        pose proof (isfile_lookup _ _ Hfile) as Hsome.
        rewrite missing_cons_present by done.
        unfold enter_trace at 2. rewrite bind_cons.
        rewrite decide_False by (destruct Hsome; congruence).
        rewrite <- !(assoc_L (++)). done.
      * cbn [fs issue]. intros f Hf. apply Hok. by right.
Qed.
End enter.

Section acquire_spec.
Implicit Types (m : gmap string node) (f root : string)
  (files created : list string).


Lemma link_all_lookup_other root l m p :
  p ∉ l → link_all root l m !! p = m !! p.
Proof.
  unfold link_all. revert m. induction l as [|x l IH]; intros m Hp; [done|].
  apply not_elem_of_cons in Hp as [Hx Hl]. simpl.
  rewrite IH, lookup_insert_ne by done. done.
Qed.

Lemma link_all_lookup root l m p :
  NoDup l → p ∈ l → link_all root l m !! p = Some (alias root p).
Proof.
  unfold link_all. revert m. induction l as [|x l IH]; intros m Hnd Hp.
  - by apply elem_of_nil in Hp.
  - apply NoDup_cons in Hnd as [Hx Hnd]. simpl.
    apply elem_of_cons in Hp as [->|Hp]; [|by apply IH].
    fold (link_all root l (<[x := alias root x]> m)).
    rewrite link_all_lookup_other by done. by rewrite lookup_insert_eq.
Qed.

Lemma elem_of_missing m files p :
p ∈ missing m files ↔ p ∈ files ∧ m !! p = None.
Proof. unfold missing. rewrite list_elem_of_filter. tauto. Qed.

Lemma NoDup_missing m files : NoDup files → NoDup (missing m files).
Proof. apply NoDup_filter. Qed.
End acquire_spec.

(** ** [__exit__] *)

Section exit.
Implicit Types (m : gmap string node) (f p : string) (w : world)
  (self : PsradSymlinks) (l : list string).

Lemma exit_eq self w :
__exit__ (self, w) = remove_loop (_created_files self) (self, w).
Proof. done. Qed.

Lemma remove_loop_cons f l self w :
  remove_loop (f :: l) (self, w) =
  let w1 := issue (sys_unlink f) w in
  match fs w !! f with
  | None => (Raise (FileNotFoundError f), (self, w1))
  | Some Directory => (Raise (IsADirectoryError f), (self, w1))
  | Some _ => remove_loop l (self, with_fs (delete f (fs w)) w1)
  end.
Proof.
  unfold remove_loop. simpl. unfold mbind, py_bind, os_call, os_remove.
  simpl. destruct (fs w !! f) as [[]|]; done.
Qed.

Lemma unlink_all_lookup_other l m p :
  p ∉ l → unlink_all l m !! p = m !! p.
Proof.
  unfold unlink_all. revert m. induction l as [|x l IH]; intros m Hp; [done|].
  apply not_elem_of_cons in Hp as [Hx Hl]. simpl.
  rewrite IH, lookup_delete_ne by done. done.
Qed.

Lemma unlink_all_lookup_None l m p :
  m !! p = None → unlink_all l m !! p = None.
Proof.
  unfold unlink_all. revert m. induction l as [|x l IH]; intros m Hp; [done|].
  simpl. apply IH. rewrite lookup_delete_None. by right.
Qed.

Lemma unlink_all_lookup l m p : p ∈ l → unlink_all l m !! p = None.
Proof.
  revert m. induction l as [|x l IH]; intros m Hp.
  - by apply elem_of_nil in Hp.
  - destruct (decide (p = x)) as [->|Hne].
    + apply (unlink_all_lookup_None l). apply lookup_delete_eq.
    + apply elem_of_cons in Hp as [?|Hp]; [done|]. by apply (IH (delete x m)).
Qed.

(** What the loop of [__exit__] does whatever its outcome: the instance,
    the environment and the log are kept, directory entries outside [l] are
    kept, no entry appears, and the removals attempted are a prefix of
    [l]. *)
Lemma remove_loop_frame l :
  ∀ self w r self' w',
    remove_loop l (self, w) = (r, (self', w')) →
    self' = self ∧ environ w' = environ w ∧ log w' = log w ∧
    (∀ p, p ∉ l → fs w' !! p = fs w !! p) ∧
    (∀ p, fs w !! p = None → fs w' !! p = None) ∧
    (∃ k, syscalls w' = syscalls w ++ (sys_unlink <$> take k l)) ∧
    (r = Return tt →
     fs w' = unlink_all l (fs w) ∧
     syscalls w' = syscalls w ++ (sys_unlink <$> l)).
Proof.
  induction l as [|x l IH]; intros self w r self' w' Hrun.
  - injection Hrun as <- <- <-.
    repeat split; try done.
    + exists 0. by rewrite app_nil_r.
    + by rewrite app_nil_r.
  - rewrite remove_loop_cons in Hrun. cbn zeta in Hrun.
    assert (Hfail : ∀ e, (Raise e, (self, issue (sys_unlink x) w))
                         = (r, (self', w')) →
      self' = self ∧ environ w' = environ w ∧ log w' = log w ∧
      (∀ p, p ∉ x :: l → fs w' !! p = fs w !! p) ∧
      (∀ p, fs w !! p = None → fs w' !! p = None) ∧
      (∃ k, syscalls w' = syscalls w ++ (sys_unlink <$> take k (x :: l))) ∧
      (r = Return tt →
       fs w' = unlink_all (x :: l) (fs w) ∧
       syscalls w' = syscalls w ++ (sys_unlink <$> x :: l))).
    { intros e He. injection He as <- <- <-.
      repeat split; try done. by exists 1. }
    assert (Hgo : remove_loop l
                    (self, with_fs (delete x (fs w)) (issue (sys_unlink x) w))
                  = (r, (self', w')) →
      self' = self ∧ environ w' = environ w ∧ log w' = log w ∧
      (∀ p, p ∉ x :: l → fs w' !! p = fs w !! p) ∧
      (∀ p, fs w !! p = None → fs w' !! p = None) ∧
      (∃ k, syscalls w' = syscalls w ++ (sys_unlink <$> take k (x :: l))) ∧
      (r = Return tt →
       fs w' = unlink_all (x :: l) (fs w) ∧
       syscalls w' = syscalls w ++ (sys_unlink <$> x :: l))).
    { intros Hl. apply IH in Hl as (-> & He & Hlog & Hfr & Hno & [k Hk] & Hret).
      simpl in *. repeat split; try done.
      - intros p Hp. apply not_elem_of_cons in Hp as [Hx Hp].
        rewrite Hfr, lookup_delete_ne by done. done.
      - intros p Hp. apply Hno. rewrite lookup_delete_None. by right.
      - exists (S k). rewrite Hk. simpl. by rewrite <- (assoc_L (++)).
      - by apply Hret.
      - destruct (Hret H) as [_ ->]. by rewrite <- (assoc_L (++)). }
    destruct (fs w !! x) as [[]|]; eauto.
Qed.

(** The loop succeeds when the names are distinct and each can be
    unlinked. *)
Lemma remove_loop_ok l :
  ∀ self w,
    NoDup l → (∀ p, p ∈ l → removable (fs w) p) →
    remove_loop l (self, w) =
    (Return tt,
     (self, {| environ := environ w; fs := unlink_all l (fs w);
               log := log w;
               syscalls := syscalls w ++ (sys_unlink <$> l) |})).
Proof.
  induction l as [|x l IH]; intros self w Hnd Hrm.
  - destruct w. unfold remove_loop, mret, py_ret. simpl. by rewrite app_nil_r.
  - apply NoDup_cons in Hnd as [Hx Hnd].
    rewrite remove_loop_cons. cbn zeta.
    destruct (Hrm x) as (n & Hn & Hdir); [left|].
    rewrite Hn.
    assert (Hrest : remove_loop l
              (self, with_fs (delete x (fs w)) (issue (sys_unlink x) w)) =
            (Return tt,
             (self, {| environ := environ w;
                       fs := unlink_all (x :: l) (fs w);
                       log := log w;
                       syscalls := syscalls w ++ (sys_unlink <$> x :: l) |}))).
    { rewrite IH; [|done|].
      - simpl. by rewrite <- (assoc_L (++)).
      - intros p Hp. simpl. assert (x ≠ p) by (intros ->; done).
        destruct (Hrm p) as (n' & Hn' & Hdir'); [by right|].
        exists n'. by rewrite lookup_delete_ne. }
    destruct n; done.
Qed.

(** The loop raises when one of the names has no entry. *)
Lemma remove_loop_absent l :
  ∀ self w f,
    f ∈ l → fs w !! f = None →
    ∃ e g w',
      remove_loop l (self, w) = (Raise e, (self, w')) ∧ g ∈ l ∧
      (e = FileNotFoundError g ∨ e = IsADirectoryError g).
Proof.
  induction l as [|x l IH]; intros self w f Hf Habs.
  - by apply elem_of_nil in Hf.
  - rewrite remove_loop_cons. cbn zeta.
    destruct (fs w !! x) as [n|] eqn:Hx.
    + assert (f ≠ x) by congruence.
      apply elem_of_cons in Hf as [?|Hf]; [done|].
      destruct (IH self (with_fs (delete x (fs w)) (issue (sys_unlink x) w))
                  f Hf) as (e & g & w' & Hrun & Hg & He).
      { simpl. rewrite lookup_delete_None. by right. }
      destruct n.
      * exists e, g, w'. split_and!; [done|by right|done].
      * eexists _, x, _. split_and!; [done|by left|by right].
      * exists e, g, w'. split_and!; [done|by right|done].
    + eexists _, x, _. split_and!; [done|by left|by left].
Qed.
End exit.

(** ** The record and the working directory across [__enter__] *)

Section enter_invariant.
Implicit Types (m : gmap string node) (f p root : string) (w : world)
  (self : PsradSymlinks) (files created : list string).

(** Whatever the outcome of the loop of [__enter__]: the record only grows,
    by names that had no entry and now name their alias, each once; every
    other name is as before. *)
Lemma enter_loop_inv root pf files :
  ∀ created w r self' w',
    for_in files __enter___body (provisioner root pf created, w)
    = (r, (self', w')) →
    ∃ new,
      self' = provisioner root pf (created ++ new) ∧
      NoDup new ∧
      (∀ p, p ∈ new →
            p ∈ files ∧ fs w !! p = None ∧
            fs w' !! p = Some (alias root p)) ∧
      (∀ p, p ∉ new → fs w' !! p = fs w !! p) ∧
      environ w' = environ w.
Proof.
  induction files as [|x l IH]; intros created w r self' w' Hrun.
  - injection Hrun as <- <- <-. exists []. rewrite app_nil_r.
    split_and!; [done|constructor| |done|done].
    intros p Hp. by apply elem_of_nil in Hp.
  - change (for_in (x :: l) __enter___body)
      with (__enter___body x ;; for_in l __enter___body) in Hrun.
    unfold mbind, py_bind at 1 in Hrun. rewrite enter_body_eq in Hrun.
    cbn zeta in Hrun.
    destruct (isfile (fs w) x) eqn:Hfile.
    + apply IH in Hrun as (new & -> & Hnd & Hnew & Hold & Henv).
      exists new. split_and!; try done.
      intros p Hp. destruct (Hnew p Hp) as (? & ? & ?).
      split_and!; [by right|done|done].
    + destruct (fs w !! x) as [n|] eqn:Hx.
      * injection Hrun as <- <- <-. exists []. rewrite app_nil_r.
        split_and!; [done|constructor| |done|done].
        intros p Hp. by apply elem_of_nil in Hp.
      * cbn [provisioner _psrad_path _psrad_files _created_files] in Hrun.
        apply IH in Hrun as (new & -> & Hnd & Hnew & Hold & Henv).
        cbn [fs environ emit with_fs issue] in *.
        assert (Hxnew : x ∉ new).
        { intros Hin. destruct (Hnew x Hin) as (_ & Habs & _).
          by rewrite lookup_insert_eq in Habs. }
        exists (x :: new). split_and!.
        -- by rewrite <- (assoc_L (++)).
        -- by apply NoDup_cons.
        -- intros p Hp. apply elem_of_cons in Hp as [->|Hp].
           ++ split_and!; [by left|done|].
              rewrite Hold by done. by rewrite lookup_insert_eq.
           ++ destruct (Hnew p Hp) as (Hl & Habs & Hal).
              assert (x ≠ p) by (intros ->; done).
              rewrite lookup_insert_ne in Habs by done.
              split_and!; [by right|done|done].
        -- intros p Hp. apply not_elem_of_cons in Hp as [Hne Hp].
           rewrite Hold, lookup_insert_ne by done. done.
        -- done.
Qed.

Lemma missing_all_absent m files :
  (∀ f, f ∈ files → m !! f = None) → missing m files = files.
Proof.
  unfold missing. induction files as [|x l IH]; intros Habs; [done|].
  rewrite filter_cons, decide_True by (apply Habs; by left).
  rewrite IH; [done|]. intros f Hf. apply Habs. by right.
Qed.

Lemma NoDup_psrad_files : NoDup psrad_files.
Proof. apply (bool_decide_unpack _). by vm_compute. Qed.
Lemma enter_ok root created w :
  (∀ f, f ∈ psrad_files → fs w !! f = None ∨ isfile (fs w) f = true) →
  __enter__ (provisioner root psrad_files created, w) =
    (Return tt,
     (provisioner root psrad_files (created ++ missing (fs w) psrad_files),
      {| environ := environ w;
         fs := link_all root (missing (fs w) psrad_files) (fs w);
         log := log w ++
                ((λ f, (DEBUG, "Create symlink " +:+ f)) <$>
                 missing (fs w) psrad_files);
         syscalls := syscalls w ++ enter_trace root (fs w) psrad_files |})).
Proof.
  intros Hok. unfold __enter__, mbind, py_bind, getattr.
  cbn [provisioner _psrad_files].
  apply enter_loop_ok; [apply NoDup_psrad_files | done].
Qed.
End enter_invariant.

(** ** The [with] statement *)

Section with_statement.
Context {A : Type}.
Implicit Types (body : py world A) (w : world) (self : PsradSymlinks).

(** Once the instance is built and [__enter__] has returned, the statement
    is the body followed by [__exit__]. *)
Lemma with_PsradSymlinks_eq body w0 root self1 w1 r w2 r' self3 w3 :
  environ w0 !! "PSRAD_PATH" = Some root →
  __enter__ (provisioner root psrad_files [], w0) = (Return tt, (self1, w1)) →
  body w1 = (r, w2) →
  __exit__ (self1, w2) = (r', (self3, w3)) →
  with_PsradSymlinks body w0 =
    (match r' with Return _ => r | Raise e => Raise e end, w3).
Proof.
  intros Henv Henter Hbody Hexit. unfold with_PsradSymlinks.
  rewrite init_eq, Henv, Henter, Hbody, Hexit. by destruct r'.
Qed.

Lemma exit_total self w :
  ∃ r w', __exit__ (self, w) = (r, (self, w')).
Proof.
  destruct (__exit__ (self, w)) as [r [self' w']] eqn:Hexit.
  pose proof Hexit as Hfr. rewrite exit_eq in Hfr.
  apply remove_loop_frame in Hfr as (-> & _). by exists r, w'.
Qed.

(** The record after a successful acquisition from an empty record. *)
Lemma entered_record root w0 self1 w1 :
  __enter__ (provisioner root psrad_files [], w0) = (Return tt, (self1, w1)) →
  NoDup (_created_files self1) ∧
  (∀ p, p ∈ _created_files self1 →
        p ∈ psrad_files ∧ fs w0 !! p = None ∧
        fs w1 !! p = Some (alias root p)) ∧
  (∀ p, p ∉ _created_files self1 → fs w1 !! p = fs w0 !! p).
Proof.
  intros Henter. unfold __enter__, mbind, py_bind, getattr in Henter.
  cbn [provisioner _psrad_files] in Henter.
  by apply enter_loop_inv in Henter as (new & -> & Hnd & Hnew & Hold & _).
Qed.
End with_statement.

Section removal_failure.
Implicit Types (f p : string) (w : world) (self : PsradSymlinks)
  (l : list string).

(** When [f] is the only recorded name that cannot be unlinked, because it
    has no entry, the loop of [__exit__] raises [FileNotFoundError] for
    [f]. *)
Lemma remove_loop_only_absent l :
  ∀ self w f,
    NoDup l → f ∈ l → fs w !! f = None →
    (∀ g, g ∈ l → g ≠ f → removable (fs w) g) →
    ∃ w', remove_loop l (self, w) = (Raise (FileNotFoundError f), (self, w')).
Proof.
  induction l as [|x l IH]; intros self w f Hnd Hf Habs Hrest.
  - by apply elem_of_nil in Hf.
  - apply NoDup_cons in Hnd as [Hx Hnd].
    rewrite remove_loop_cons. cbn zeta.
    destruct (decide (x = f)) as [->|Hne].
    + rewrite Habs. by eexists.
    + apply elem_of_cons in Hf as [?|Hf]; [done|].
      destruct (Hrest x) as (n & Hn & Hdir); [by left|done|].
      rewrite Hn.
      destruct (IH self (with_fs (delete x (fs w)) (issue (sys_unlink x) w))
                  f Hnd Hf) as [w' Hrun].
      * simpl. rewrite lookup_delete_None. by right.
      * intros g Hg Hgf. simpl.
        assert (x ≠ g) by (intros ->; done).
        destruct (Hrest g) as (n' & Hn' & Hdir'); [by right|done|].
        exists n'. by rewrite lookup_delete_ne.
      * exists w'. by destruct n.
Qed.
End removal_failure.

(** ** netCDF4 assignments *)

Section netcdf_facts.
Context {value : Type}.
Implicit Types (cs : gmap (list nat) value) (c k : list nat) (x : @ndarray value)
  (ds : @Dataset value) (v : @NcVariable value) (t n j : nat)
  (name var : string) (lg : list (level * string)).

Lemma lookup_foldr_put_other t x cs L k :
  (∀ c, c ∈ L → k ≠ t :: c) →
  foldr (put t x) cs L !! k = cs !! k.
Proof.
  induction L as [|c L IH]; intros Hk; [done|]. simpl.
  unfold put at 1. destruct (element x c).
  - rewrite lookup_insert_ne; [|intros ?; by apply (Hk c); [left|]].
    apply IH. intros c' Hc'. apply Hk. by right.
  - apply IH. intros c' Hc'. apply Hk. by right.
Qed.

Lemma lookup_foldr_put t x cs L c a :
  c ∈ L → element x c = Some a →
  foldr (put t x) cs L !! (t :: c) = Some a.
Proof.
  induction L as [|c' L IH]; intros Hc Ha.
  - by apply elem_of_nil in Hc.
  - simpl. destruct (decide (c' = c)) as [->|Hne].
    + unfold put at 1. rewrite Ha. by rewrite lookup_insert_eq.
    + apply elem_of_cons in Hc as [?|Hc]; [done|].
      unfold put at 1. destruct (element x c').
      * rewrite lookup_insert_ne by congruence. by apply IH.
      * by apply IH.
Qed.

Lemma elem_of_cells_row n c : c ∈ cells [n] ↔ ∃ j, j < n ∧ c = [j].
Proof.
  simpl. rewrite list_elem_of_bind. split.
  - intros (j & Hc & Hj). apply elem_of_seq in Hj.
    apply list_elem_of_singleton in Hc. exists j. split; [lia|done].
  - intros (j & Hj & ->). exists j. split; [by left|].
    apply elem_of_seq. lia.
Qed.

Lemma element_array_row (l : list value) j :
  j < length l → element (array l) [j] = l !! j.
Proof.
  intros Hj. unfold element. case_bool_decide as Hone; [|done].
  by replace j with 0 by lia.
Qed.

Lemma grow_id t (dim : Dimension) : t < dim_size dim → grow t dim = dim.
Proof.
  intros Ht. destruct dim as [n u]. unfold grow. simpl in *.
  f_equal. lia.
Qed.

(** [nc.variables[name][t] = a] on a variable over one dimension. *)
Lemma lengthen_id n (dim : Dimension) :
  n ≤ dim_size dim → lengthen n dim = dim.
Proof.
  intros Hn. destruct dim as [m u]. unfold lengthen. simpl in *.
  f_equal. lia.
Qed.

Lemma alter_lengthen_id n d (dims : gmap string Dimension) dim :
  dims !! d = Some dim → n ≤ dim_size dim → alter (lengthen n) d dims = dims.
Proof.
  intros Hd Hn. apply map_eq. intros k. rewrite lookup_alter.
  case_decide as Hk; [|done]. subst k. rewrite Hd. simpl.
  by rewrite lengthen_id.
Qed.

Lemma slice_length_ge x (dim : Dimension) :
  isunlimited dim = false → slice_length x dim = dim_size dim.
Proof. unfold slice_length. by intros ->. Qed.

Lemma variable_setitem_point name t a ds v d0 dim0 :
  variables ds !! name = Some v →
  var_dimensions v = [d0] →
  dimensions ds !! d0 = Some dim0 →
  t < dim_size dim0 ∨ isunlimited dim0 = true →
  variable_setitem name t 0 (scalar a) ds =
  (Return tt,
   {| dimensions := <[d0 := grow t dim0]> (dimensions ds);
      variables := <[name := {| var_dimensions := [d0];
                                var_data := <[[t] := a]> (var_data v) |}]>
                     (variables ds) |}).
Proof.
  intros Hv Hd Hd0 Hrange. unfold variable_setitem.
  rewrite Hv, Hd. simpl. rewrite Hd0.
  assert (bool_decide (t < dim_size dim0) || isunlimited dim0 = true) as ->.
  { destruct Hrange as [?| ->]; [|by rewrite orb_true_r].
    by rewrite bool_decide_eq_true_2. }
  done.
Qed.

Lemma variable_setitem_unknown name t slices x ds :
  variables ds !! name = None →
  variable_setitem name t slices x ds = (Raise (KeyError name), ds).
Proof. intros Hv. unfold variable_setitem. by rewrite Hv. Qed.

(** [nc.variables[name][t, :] = x] on a variable over [(d0, d1)], by
    cases. *)
Lemma variable_setitem_row name t x ds v d0 d1 dim0 dim1 :
  variables ds !! name = Some v →
  var_dimensions v = [d0; d1] →
  dimensions ds !! d0 = Some dim0 →
  dimensions ds !! d1 = Some dim1 →
  t < dim_size dim0 →
  variable_setitem name t 1 x ds =
  if broadcastable [slice_length x dim1] x then
    (Return tt,
     {| dimensions :=
          alter (lengthen (slice_length x dim1)) d1 (dimensions ds);
        variables := <[name := {| var_dimensions := [d0; d1];
                                  var_data := foldr (put t x) (var_data v)
                                                (cells [slice_length x dim1])
                               |}]>
                       (variables ds) |})
  else (Raise (ValueError "shape mismatch"), ds).
Proof.
  intros Hv Hd Hd0 Hd1 Ht. unfold variable_setitem.
  rewrite Hv, Hd. cbn [length mapM]. rewrite bool_decide_eq_false_2 by lia.
  rewrite Hd0. cbn. rewrite Hd1. cbn.
  rewrite bool_decide_eq_true_2 by done. cbn.
  destruct (broadcastable [slice_length x dim1] x); [|done].
  by rewrite grow_id, insert_id.
Qed.

Lemma rows_assigned_refl t keys ds : rows_assigned t keys ds ds.
Proof.
  split_and!; [done| |].
  - by destruct (dimensions ds !! "plev").
  - intros name. by destruct (variables ds !! name).
Qed.

Lemma rows_assigned_weaken t keys keys' ds ds' :
  (∀ key : string, key ∈ keys → key ∈ keys') →
  rows_assigned t keys ds ds' → rows_assigned t keys' ds ds'.
Proof.
  intros Hsub (Hdim & Hplev & Hvars). split_and!; [done|done|]. intros name.
  specialize (Hvars name).
  destruct (variables ds !! name) as [v|], (variables ds' !! name) as [v'|];
    try done.
  destruct Hvars as (Hd & Hsame & Hcells). split_and!; [done| |done].
  intros [?|Hout]; apply Hsame; [by left|right]. intros Hin. by apply Hout, Hsub.
Qed.

Lemma rows_assigned_trans t keys1 keys2 ds1 ds2 ds3 :
  rows_assigned t keys1 ds1 ds2 →
  rows_assigned t keys2 ds2 ds3 →
  rows_assigned t (keys1 ++ keys2) ds1 ds3.
Proof.
  intros (Hdim1 & Hplev1 & Hvars1) (Hdim2 & Hplev2 & Hvars2). split_and!.
  - intros d Hd. by rewrite Hdim2, Hdim1.
  - destruct (dimensions ds1 !! "plev") as [p1|],
      (dimensions ds2 !! "plev") as [p2|],
      (dimensions ds3 !! "plev") as [p3|]; try done.
    destruct Hplev1 as (Hu1 & Hle1 & Hfix1), Hplev2 as (Hu2 & Hle2 & Hfix2).
    split_and!; [congruence|lia|].
    intros Hfixed. rewrite Hfix2, Hfix1 by congruence. done.
  - intros name. specialize (Hvars1 name). specialize (Hvars2 name).
    destruct (variables ds1 !! name) as [v1|],
      (variables ds2 !! name) as [v2|],
      (variables ds3 !! name) as [v3|]; try done.
    destruct Hvars1 as (Hd1 & Hsame1 & Hcells1).
    destruct Hvars2 as (Hd2 & Hsame2 & Hcells2).
    split_and!; [congruence| |].
    + intros Hout.
      assert (v2 = v1) as ->.
      { apply Hsame1. destruct Hout as [?|Hout]; [by left|right].
        intros Hin. apply Hout, elem_of_app. by left. }
      apply Hsame2. destruct Hout as [?|Hout]; [by left|right].
      intros Hin. apply Hout, elem_of_app. by right.
    + intros c Hc. by rewrite Hcells2, Hcells1.
Qed.

(** Whatever [nc.variables[name][t, :] = x] does to a variable over
    [(time, plev)] when row [t] is within the time dimension, it only
    assigns cells of row [t] of that variable. *)
Lemma variable_setitem_rows_assigned name t x ds v dim0 r ds' :
  variables ds !! name = Some v →
  var_dimensions v = ["time"; "plev"] →
  dimensions ds !! "time" = Some dim0 →
  t < dim_size dim0 →
  variable_setitem name t 1 x ds = (r, ds') →
  rows_assigned t [name] ds ds'.
Proof.
  intros Hv Hd Hd0 Ht Hrun.
  pose proof (rows_assigned_refl t [name] ds) as Hrefl.
  destruct (dimensions ds !! "plev") as [dim1|] eqn:Hd1.
  - rewrite (variable_setitem_row _ _ _ _ _ _ _ _ _ Hv Hd Hd0 Hd1 Ht) in Hrun.
    destruct (broadcastable [slice_length x dim1] x);
      injection Hrun as <- <-; [|done].
    split_and!.
    + intros d Hne. cbn [dimensions]. by rewrite lookup_alter_ne.
    + cbn [dimensions]. rewrite Hd1, lookup_alter_eq, Hd1. cbn.
      split_and!; [done|lia|].
      intros Hfix. apply lengthen_id. by rewrite slice_length_ge.
    + intros name'. cbn [variables].
      destruct (decide (name = name')) as [<-|Hne].
      * rewrite Hv, lookup_insert_eq. cbn [var_dimensions var_data].
        split_and!; [done| |].
        -- intros [?|Hout]; [done|]. exfalso. apply Hout. by left.
        -- intros c Hc. apply lookup_foldr_put_other.
           intros c' _ ->. by apply Hc.
      * rewrite lookup_insert_ne by done.
        by destruct (variables ds !! name').
  - unfold variable_setitem in Hrun. rewrite Hv, Hd in Hrun.
    cbn [length mapM] in Hrun. rewrite bool_decide_eq_false_2 in Hrun by lia.
    rewrite Hd0 in Hrun. cbn in Hrun. rewrite Hd1 in Hrun. cbn in Hrun.
    by injection Hrun as <- <-.
Qed.

(** [nc[var]] leaves the dataset as it is, and a name of a variable gives
    that variable. *)
Lemma dataset_getitem_state var ds r ds' :
  dataset_getitem var ds = (r, ds') →
  ds' = ds ∧ ∀ v, variables ds !! var = Some v → r = Return v.
Proof.
  unfold dataset_getitem.
  destruct (variables ds !! var) as [v|].
  - intros [= <- <-]. split; [done|]. by intros ? [= ->].
  - unfold dataset_getitem_by_path.
    destruct (path_lookup var) as [[|g groups] lastname].
    + destruct (variables ds !! lastname); by intros [= <- <-].
    + by intros [= <- <-].
Qed.

(** One iteration of the loop over [data], whatever its outcome. *)
Lemma append_body_rows_assigned data t var ds lg r ds' lg' dim0 :
  dimensions ds !! "time" = Some dim0 →
  t < dim_size dim0 →
  append_timestep_netcdf_body data t var (ds, lg) = (r, (ds', lg')) →
  lg' = lg ∧ rows_assigned t [var] ds ds'.
Proof.
  intros Hd0 Ht. unfold append_timestep_netcdf_body, mbind, py_bind.
  unfold nc_call at 1.
  destruct (dataset_getitem var ds) as [r0 ds0] eqn:Hget.
  apply dataset_getitem_state in Hget as [-> Hhit].
  destruct r0 as [v|e];
    [|intros [= <- <- <-]; split; [done|apply rows_assigned_refl]].
  case_bool_decide as Hd;
    [|intros [= <- <- <-]; split; [done|apply rows_assigned_refl]].
  unfold nc_call at 1, dict_getitem.
  destruct (dict_lookup data var) as [x|];
    [|intros [= <- <- <-]; split; [done|apply rows_assigned_refl]].
  assert (Hsame : (match x with
                   | PlainArray values | HasValues values =>
                       nc_call (variable_setitem var t 1 values)
                   end) = nc_call (variable_setitem var t 1 (values_of x)))
    by by destruct x.
  rewrite Hsame. unfold nc_call.
  destruct (variable_setitem var t 1 (values_of x) ds) as [r1 ds1] eqn:Hset.
  intros [= <- <- <-]. split; [done|].
  destruct (variables ds !! var) as [v0|] eqn:Hv.
  - assert (v = v0) as -> by (specialize (Hhit v0 eq_refl); congruence).
    by eapply variable_setitem_rows_assigned.
  - rewrite variable_setitem_unknown in Hset by done.
    injection Hset as <- <-. apply rows_assigned_refl.
Qed.

(** The loop over [data], whatever its outcome. *)
Lemma append_loop_rows_assigned data t keys :
  ∀ ds lg r ds' lg' dim0,
    dimensions ds !! "time" = Some dim0 →
    t < dim_size dim0 →
    for_in keys (append_timestep_netcdf_body data t) (ds, lg)
    = (r, (ds', lg')) →
    lg' = lg ∧ rows_assigned t keys ds ds'.
Proof.
  induction keys as [|var keys IH]; intros ds lg r ds' lg' dim0 Hd0 Ht Hrun.
  - injection Hrun as <- <- <-. split; [done|apply rows_assigned_refl].
  - change (for_in (var :: keys) (append_timestep_netcdf_body data t))
      with (append_timestep_netcdf_body data t var ;;
            for_in keys (append_timestep_netcdf_body data t)) in Hrun.
    unfold mbind, py_bind at 1 in Hrun.
    destruct (append_timestep_netcdf_body data t var (ds, lg))
      as [r1 [ds1 lg1]] eqn:Hbody.
    apply (append_body_rows_assigned _ _ _ _ _ _ _ _ _ Hd0 Ht) in Hbody
      as [-> Hstep].
    destruct r1 as [[]|e].
    + apply (IH _ _ _ _ _ dim0) in Hrun as [-> Hrest];
        [|by rewrite (proj1 Hstep) by done|done].
      split; [done|].
      by apply (rows_assigned_trans t [var] keys ds ds1 ds').
    + injection Hrun as <- <- <-. split; [done|].
      apply (rows_assigned_weaken t [var]); [|done].
      intros key Hk. apply list_elem_of_singleton in Hk as ->. by left.
Qed.

Lemma dict_lookup_elem (data : list (string * @payload value)) var p :
  NoDup data.*1 → (var, p) ∈ data → dict_lookup data var = Some p.
Proof.
  induction data as [|[k q] data IH]; intros Hnd Hin.
  - by apply elem_of_nil in Hin.
  - cbn in Hnd. apply NoDup_cons in Hnd as [Hk Hnd]. simpl.
    apply elem_of_cons in Hin as [[= -> ->]|Hin].
    + by rewrite decide_True.
    + rewrite decide_False; [by apply IH|].
      intros ->. apply Hk. apply list_elem_of_fmap. by exists (var, p).
Qed.

Lemma dict_lookup_key (data : list (string * @payload value)) var :
  var ∈ data.*1 → is_Some (dict_lookup data var).
Proof.
  induction data as [|[k q] data IH]; intros Hin.
  - by apply elem_of_nil in Hin.
  - simpl. destruct (decide (k = var)); [eauto|].
    apply IH. cbn in Hin. by apply elem_of_cons in Hin as [?|?].
Qed.

(** The loop over [data] when every key names a variable of the file and
    every value given for a variable over [(time, plev)] fits a row. *)
Lemma append_loop_ok data t keys :
  ∀ ds lg dim0,
    NoDup keys →
    dimensions ds !! "time" = Some dim0 →
    t < dim_size dim0 →
    (∀ var, var ∈ keys →
       ∃ v, variables ds !! var = Some v ∧
            (var_dimensions v = ["time"; "plev"] →
             ∃ p pd, dict_lookup data var = Some p ∧
                     dimensions ds !! "plev" = Some pd ∧
                     slice_length (values_of p) pd = dim_size pd ∧
                     broadcastable [dim_size pd] (values_of p) = true)) →
    ∃ ds',
      for_in keys (append_timestep_netcdf_body data t) (ds, lg)
      = (Return tt, (ds', lg)) ∧
      dimensions ds' = dimensions ds ∧
      rows_assigned t keys ds ds' ∧
      ∀ var v p pd j a,
        var ∈ keys →
        variables ds !! var = Some v →
        var_dimensions v = ["time"; "plev"] →
        dict_lookup data var = Some p →
        dimensions ds !! "plev" = Some pd →
        j < dim_size pd →
        element (values_of p) [j] = Some a →
        ∃ v', variables ds' !! var = Some v' ∧
              var_data v' !! [t; j] = Some a.
Proof.
  induction keys as [|var keys IH]; intros ds lg dim0 Hnd Hd0 Ht Hok.
  - exists ds. split_and!; [done|done|apply rows_assigned_refl|].
    intros ?????? Hin. by apply elem_of_nil in Hin.
  - apply NoDup_cons in Hnd as [Hvar Hnd].
    change (for_in (var :: keys) (append_timestep_netcdf_body data t))
      with (append_timestep_netcdf_body data t var ;;
            for_in keys (append_timestep_netcdf_body data t)).
    unfold mbind, py_bind at 1.
    destruct (Hok var) as (v & Hv & Hfit); [by left|].
    (* the iteration for [var] *)
    assert (Hstep : ∃ ds1,
      append_timestep_netcdf_body data t var (ds, lg) = (Return tt, (ds1, lg)) ∧
      dimensions ds1 = dimensions ds ∧
      (∀ name, name ≠ var → variables ds1 !! name = variables ds !! name) ∧
      (∀ p pd j a,
         var_dimensions v = ["time"; "plev"] →
         dict_lookup data var = Some p →
         dimensions ds !! "plev" = Some pd →
         j < dim_size pd →
         element (values_of p) [j] = Some a →
         ∃ v1, variables ds1 !! var = Some v1 ∧
               var_data v1 !! [t; j] = Some a)).
    { unfold append_timestep_netcdf_body, mbind, py_bind.
      unfold nc_call at 1, dataset_getitem. rewrite Hv.
      case_bool_decide as Hd.
      - destruct (Hfit Hd) as (p & pd & Hp & Hpd & Hlen & Hbc).
        unfold nc_call at 1, dict_getitem. rewrite Hp.
        assert (Hsame : (match p with
                         | PlainArray values | HasValues values =>
                             nc_call (variable_setitem var t 1 values)
                         end)
                        = nc_call (variable_setitem var t 1 (values_of p)))
          by by destruct p.
        rewrite Hsame. unfold nc_call.
        rewrite (variable_setitem_row _ _ _ _ _ _ _ _ _ Hv Hd Hd0 Hpd Ht).
        rewrite Hlen, Hbc.
        rewrite (alter_lengthen_id _ _ _ _ Hpd) by done.
        eexists. split_and!; [done|done|..].
        + intros name Hne. cbn [variables]. by rewrite lookup_insert_ne.
        + intros p' pd' j a _ Hp' Hpd' Hj Ha.
          assert (p' = p) as -> by congruence.
          assert (pd' = pd) as -> by congruence.
          eexists. cbn [variables]. rewrite lookup_insert_eq.
          split; [done|]. cbn [var_data].
          apply lookup_foldr_put; [|done].
          apply elem_of_cells_row. by exists j.
      - exists ds. split_and!; [done|done|done|]. by intros. }
    destruct Hstep as (ds1 & Hbody & Hdim1 & Hother & Hrow). rewrite Hbody.
    destruct (IH ds1 lg dim0) as (ds' & Hrun & Hdims & Hrest & Hrows);
      [done|by rewrite Hdim1|done| |].
    { intros var' Hin. assert (var' ≠ var) by (intros ->; done).
      rewrite Hother, Hdim1 by done. apply Hok. by right. }
    exists ds'. split_and!; [done|congruence| |].
    + apply (rows_assigned_trans t [var] keys ds ds1 ds'); [|done].
      by apply (append_body_rows_assigned _ _ _ _ _ _ _ _ _ Hd0 Ht Hbody).
    + intros var' v' p pd j a Hin Hv' Hd' Hp Hpd Hj Ha.
      destruct (decide (var' = var)) as [->|Hne].
      * assert (v' = v) as -> by congruence.
        destruct (Hrow p pd j a) as (v1 & Hv1 & Hcell); [done..|].
        destruct Hrest as (_ & _ & Hvars). specialize (Hvars var).
        rewrite Hv1 in Hvars.
        destruct (variables ds' !! var) as [v3|]; [|done].
        destruct Hvars as (_ & Hsame & _).
        rewrite (Hsame (or_intror Hvar)). by exists v1.
      * apply elem_of_cons in Hin as [?|Hin]; [done|].
        apply (Hrows var' v' p pd j a); [done| |done|done| |done|done].
        -- by rewrite Hother.
        -- by rewrite Hdim1.
Qed.

(** The loop over [data] when no key names a variable over
    [(time, plev)]. *)
Lemma append_loop_skip data t keys ds lg :
  (∀ var, var ∈ keys →
     ∃ v, variables ds !! var = Some v ∧
          var_dimensions v ≠ ["time"; "plev"]) →
  for_in keys (append_timestep_netcdf_body data t) (ds, lg)
  = (Return tt, (ds, lg)).
Proof.
  induction keys as [|var keys IH]; intros Hnone; [done|].
  change (for_in (var :: keys) (append_timestep_netcdf_body data t))
    with (append_timestep_netcdf_body data t var ;;
          for_in keys (append_timestep_netcdf_body data t)).
  unfold mbind, py_bind at 1.
  destruct (Hnone var) as (v & Hv & Hd); [by left|].
  assert (append_timestep_netcdf_body data t var (ds, lg)
          = (Return tt, (ds, lg))) as ->.
  { unfold append_timestep_netcdf_body, mbind, py_bind.
    unfold nc_call at 1, dataset_getitem. rewrite Hv.
    by rewrite bool_decide_eq_false_2. }
  apply IH. intros var' Hin. apply Hnone. by right.
Qed.

(** The function up to its loop, on a file with a growable time axis of
    length [t] and a time variable over it. *)
Lemma append_timestep_netcdf_eq filename data (timestamp : value) st ds t v :
  nc_files st !! filename = Some ds →
  dimensions ds !! "time" = Some {| dim_size := t; isunlimited := true |} →
  variables ds !! "time" = Some v →
  var_dimensions v = ["time"] →
  append_timestep_netcdf filename data timestamp st =
  let '(r, (ds', lg')) :=
    for_in data.*1 (append_timestep_netcdf_body data t)
      (time_appended t timestamp v ds,
       root_log st ++ [(DEBUG, "Append timestep to " +:+ dquote +:+
                               filename +:+ dquote +:+ ".")]) in
  (r, {| nc_files := <[filename := ds']> (nc_files st); root_log := lg' |}).
Proof.
  intros Hfile Hdim Hv Hd.
  unfold append_timestep_netcdf, with_Dataset. rewrite Hfile.
  cbn [default from_option id]. cbv zeta.
  unfold mbind, py_bind, logging_debug.
  unfold nc_call at 1, dimension_size. rewrite Hdim. cbn [dim_size].
  unfold nc_call at 1.
  rewrite (variable_setitem_point _ _ _ _ _ _ _ Hv Hd Hdim) by (by right).
  unfold grow. cbn [dim_size isunlimited].
  by replace (t `max` S t) with (S t) by lia.
Qed.
End netcdf_facts.

(** ** Names without separator *)

Section plain_names.
Implicit Types (s : string).

Lemma split_sep_plain s : has_sep s = false → split_sep s = [s].
Proof.
  induction s as [|c r IH]; [done|]. simpl.
  intros Hs. apply orb_false_elim in Hs as [Hc Hr].
  rewrite Hc, IH by done. done.
Qed.

Lemma prefix_sep_plain s : has_sep s = false → String.prefix sep s = false.
Proof.
  destruct s as [|c r]; [done|]. intros Hs. simpl in Hs.
  apply orb_false_elim in Hs as [Hc _].
  unfold sep. cbn -[Ascii.ascii_dec].
  match goal with
  | |- context [Ascii.ascii_dec ?a ?b] =>
      destruct (Ascii.ascii_dec a b) as [<-|]; [|done]
  end.
  by vm_compute in Hc.
Qed.

(** [posixpath.normpath] leaves a non-empty name without separator as it
    is. *)
Lemma normpath_plain s : has_sep s = false → s ≠ "" → normpath s = s.
Proof.
  intros Hs Hne.
  destruct (decide (s = ".")) as [->|Hdot]; [by vm_compute|].
  assert (Hstep : normpath_step 0 [] s = [s]).
  { unfold normpath_step.
    rewrite bool_decide_eq_false_2 by (by intros [?|?]).
    rewrite bool_decide_eq_true_2; [done|].
    destruct (decide (s = "..")); [right; left; done|by left]. }
  unfold normpath.
  rewrite bool_decide_eq_false_2 by done.
  rewrite prefix_sep_plain, split_sep_plain by done.
  cbn [foldl replicate String.concat]. rewrite Hstep.
  cbn [join_sep]. rewrite bool_decide_eq_false_2; [done|].
  by destruct s.
Qed.

Lemma path_lookup_plain s :
  has_sep s = false → s ≠ "" → path_lookup s = ([], s).
Proof.
  intros Hs Hne. unfold path_lookup.
  by rewrite normpath_plain, split_sep_plain.
Qed.
End plain_names.

Section unknown_names.
Context {value : Type}.
Implicit Types (ds : @Dataset value).

(** [nc[var]] for a plain name that is no variable of the file. *)
Lemma dataset_getitem_unknown var ds :
  has_sep var = false → var ≠ "" →
  variables ds !! var = None →
  dataset_getitem var ds = (Raise (IndexError var), ds).
Proof.
  intros Hs Hne Hv. unfold dataset_getitem, dataset_getitem_by_path.
  by rewrite Hv, path_lookup_plain, Hv.
Qed.

(** On a dataset whose variables have names that netCDF allows, the lookup
    is the resolution of the path. *)
Lemma dataset_getitem_by_path_eq name ds :
  (∀ k, is_Some (variables ds !! k) → has_sep k = false ∧ k ≠ "") →
  dataset_getitem name ds = dataset_getitem_by_path name ds.
Proof.
  intros Hnames. unfold dataset_getitem.
  destruct (variables ds !! name) as [v|] eqn:Hv; [|done].
  destruct (Hnames name) as [Hs Hne]; [by rewrite Hv|].
  unfold dataset_getitem_by_path. by rewrite path_lookup_plain, Hv.
Qed.
End unknown_names.

(** * Properties of the provisioner *)

Ltac each_psrad_file H :=
  unfold psrad_files in H;
  repeat (apply elem_of_cons in H as [->|H]);
  [..|by apply elem_of_nil in H].




(** C2: after an acquisition that started with an empty record, [__exit__],
    in whatever later state [w] of the process it runs and whatever its
    outcome, touches no name outside the created-aliases record; a name that
    had an entry before acquisition is never in the record; the removals
    attempted are the recorded names in recorded order; when [__exit__]
    returns, every recorded name has been unlinked and is gone.  Run on the
    state acquisition left, [__exit__] returns, and every entry that existed
    before acquisition is as it was. *)
Theorem exit_removes_only_recorded root w0 self1 w1 w r self2 w2 :
  __enter__ (provisioner root psrad_files [], w0) = (Return tt, (self1, w1)) →
  __exit__ (self1, w) = (r, (self2, w2)) →
  (∀ p, p ∉ _created_files self1 → fs w2 !! p = fs w !! p) ∧
  (∀ p, is_Some (fs w0 !! p) → p ∉ _created_files self1) ∧
  (∃ k, syscalls w2 =
        syscalls w ++ (sys_unlink <$> take k (_created_files self1))) ∧
  (r = Return tt →
   syscalls w2 = syscalls w ++ (sys_unlink <$> _created_files self1) ∧
   fs w2 = unlink_all (_created_files self1) (fs w) ∧
   ∀ p, p ∈ _created_files self1 → fs w2 !! p = None) ∧
  (w = w1 →
   r = Return tt ∧ ∀ p, is_Some (fs w0 !! p) → fs w2 !! p = fs w0 !! p).
Proof.
  intros Henter Hexit.
  unfold __enter__, mbind, py_bind, getattr in Henter.
  cbn [provisioner _psrad_files] in Henter.
  apply enter_loop_inv in Henter as (new & -> & Hnd & Hnew & Hold & _).
  cbn [provisioner _created_files app] in *.
  assert (Hpre : ∀ p, is_Some (fs w0 !! p) → p ∉ new).
  { intros p [n Hn] Hin. destruct (Hnew p Hin) as (_ & ? & _). congruence. }
  pose proof Hexit as Hframe. rewrite exit_eq in Hframe.
  cbn [provisioner _created_files] in Hframe.
  apply remove_loop_frame in Hframe as (_ & _ & _ & Hfr & _ & Hk & Hret).
  split_and!; try done.
  - intros ->. destruct (Hret eq_refl) as [-> ->]. split_and!; [done..|].
    intros p Hp. by apply unlink_all_lookup.
  - intros ->. rewrite exit_eq in Hexit.
    cbn [provisioner _created_files] in Hexit.
    rewrite remove_loop_ok in Hexit.
    + injection Hexit as <- <- <-. split; [done|].
      intros p Hp. cbn [fs].
      rewrite unlink_all_lookup_other, Hold by auto. done.
    + done.
    + intros p Hp. destruct (Hnew p Hp) as (_ & _ & Hal).
      by exists (alias root p).
Qed.

Lemma exit_removes_only_recorded_witness :
  let s1 := (__enter__ (provisioner "/data/psrad" psrad_files [],
                        w_lw_present)).2 in
  let s2 := (__exit__ s1).2 in
  _created_files s1.1 = [ "ECHAM6_CldOptProps.nc"; "rrtmg_sw.nc";
                          "libpsrad.so.1" ] ∧
  (__exit__ s1).1 = Return tt ∧
  (∀ p, is_Some (fs w_lw_present !! p) →
        fs s2.2 !! p = fs w_lw_present !! p).
Proof.
  intros s1 s2.
  assert (Henter : __enter__ (provisioner "/data/psrad" psrad_files [],
                              w_lw_present) = (Return tt, (s1.1, s1.2)))
    by (vm_compute; reflexivity).
  assert (Hexit : __exit__ (s1.1, s1.2) = (Return tt, (s2.1, s2.2)))
    by (vm_compute; reflexivity).
  destruct (exit_removes_only_recorded _ _ _ _ _ _ _ _ Henter Hexit)
    as (_ & _ & _ & _ & Hrun).
  destruct (Hrun eq_refl) as [_ Hkeep].
  split_and!; [by vm_compute | by vm_compute | exact Hkeep].
Defined.

(** C3: from a working directory that has none of the four required names,
    [__enter__] creates exactly the four aliases, each pointing at
    [os.path.join(resource_root, name)], and records the four names;
    [__exit__] then unlinks exactly those four, in order, and the working
    directory is again what it was. *)
Theorem acquire_release_round_trip root w0 :
  (∀ f, f ∈ psrad_files → fs w0 !! f = None) →
  ∃ w1 w2,
    __enter__ (provisioner root psrad_files [], w0)
    = (Return tt, (provisioner root psrad_files psrad_files, w1)) ∧
    (∀ f, f ∈ psrad_files → fs w1 !! f = Some (alias root f)) ∧
    (∀ p, p ∉ psrad_files → fs w1 !! p = fs w0 !! p) ∧
    __exit__ (provisioner root psrad_files psrad_files, w1)
    = (Return tt, (provisioner root psrad_files psrad_files, w2)) ∧
    syscalls w2 = syscalls w1 ++ (sys_unlink <$> psrad_files) ∧
    fs w2 = fs w0.
Proof.
  intros Habs.
  assert (Hrun := enter_ok root [] w0).
  lapply Hrun; [clear Hrun; intros Hrun | intros f Hf; left; by apply Habs].
  rewrite (missing_all_absent _ _ Habs) in Hrun.
  cbn [app] in Hrun.
  eexists _, _. split_and!.
  - exact Hrun.
  - intros f Hf. cbn [fs]. apply link_all_lookup; [apply NoDup_psrad_files|done].
  - intros p Hp. cbn [fs]. by apply link_all_lookup_other.
  - rewrite exit_eq. cbn [provisioner _created_files].
    apply remove_loop_ok; [apply NoDup_psrad_files|].
    intros p Hp. cbn [fs]. exists (alias root p).
    split; [|done]. apply link_all_lookup; [apply NoDup_psrad_files|done].
  - done.
  - cbn [fs]. apply map_eq. intros p.
    destruct (decide (p ∈ psrad_files)) as [Hin|Hout].
    + rewrite unlink_all_lookup by done. by rewrite Habs.
    + rewrite unlink_all_lookup_other, link_all_lookup_other by done. done.
Qed.

Lemma acquire_release_round_trip_witness :
  (∀ f, f ∈ psrad_files → fs w_empty !! f = None) ∧
  fs (__exit__ (__enter__ (provisioner "/data/psrad" psrad_files [],
                           w_empty)).2).2.2 = fs w_empty.
Proof.
  assert (Habs : ∀ f, f ∈ psrad_files → fs w_empty !! f = None).
  { intros f Hf. each_psrad_file Hf; by vm_compute. }
  split; [exact Habs|].
  destruct (acquire_release_round_trip "/data/psrad" w_empty Habs)
    as (w1 & w2 & -> & _ & _ & Hexit & _ & Hfs).
  cbn [snd]. by rewrite Hexit.
Defined.

(** C5: without the [PSRAD_PATH] setting, [__init__] raises the [KeyError]
    of the lookup (the specification's configuration error) after one ERROR
    record has been logged, and nothing else has happened: no filesystem
    call was issued and the working directory is unchanged.  With the
    setting, [__init__] returns the instance with that resource root, the
    four required names and an empty created-aliases record, and the process
    is unchanged. *)
Theorem init_reads_resource_root w :
  __init__ w =
    match environ w !! "PSRAD_PATH" with
    | None =>
        (Raise (KeyError "PSRAD_PATH"),
         {| environ := environ w; fs := fs w;
            log := log w ++ [(ERROR, "Path to PSRAD directory not set.")];
            syscalls := syscalls w |})
    | Some root => (Return (provisioner root psrad_files []), w)
    end.
Proof. rewrite init_eq. by destruct (environ w !! "PSRAD_PATH"). Qed.

Lemma init_reads_resource_root_witness :
  __init__ w_unset =
    (Raise (KeyError "PSRAD_PATH"),
     World ∅ ∅ [(ERROR, "Path to PSRAD directory not set.")] []) ∧
  __init__ w_empty = (Return (provisioner "/data/psrad" psrad_files []), w_empty).
Proof.
  split.
  - by rewrite (init_reads_resource_root w_unset).
  - by rewrite (init_reads_resource_root w_empty).
Defined.

(** C4, as the claim words it, fails: a callable that unlinks [rrtmg_lw.nc]
    and returns 7 returns 7 inside the scope, yet the wrapped call raises
    [FileNotFoundError]; the alias [rrtmg_sw.nc] is still there afterwards. *)
Lemma wrapper_not_transparent_when_alias_unlinked :
  (with_psrad_symlinks unlink_lw tt w_empty).1
  = Raise (FileNotFoundError "rrtmg_lw.nc") ∧
  fs (with_psrad_symlinks unlink_lw tt w_empty).2 !! "rrtmg_sw.nc"
  = Some (alias "/data/psrad" "rrtmg_sw.nc") ∧
  ¬ wrapper_transparent unlink_lw tt w_empty.
Proof.
  split_and!; [by vm_compute..|].
  intros Hclaim.
  pose (s0 := __init__ w_empty).
  pose (s1 := __enter__ (provisioner "/data/psrad" psrad_files [], s0.2)).
  pose (s2 := unlink_lw tt s1.2.2).
  destruct (Hclaim (provisioner "/data/psrad" psrad_files []) s0.2
              s1.2.1 s1.2.2 7 s2.2) as [Hret _];
    [by vm_compute..|].
  vm_compute in Hret. discriminate.
Qed.

(** C4 (amended): when [PSRAD_PATH] is set and [__enter__] returns, the
    wrapped callable invokes [func] with its original arguments in the state
    acquisition left, and then runs [__exit__].  If [func] returns [X] and
    every created alias can still be unlinked when it returns, the wrapped
    call returns [X]; every created alias existed during the call and none
    exists after it; names outside the record are as [func] left them. *)
Theorem with_psrad_symlinks_returns {A B} (func : A → py world B) (args : A)
    w0 root self1 w1 X w2 :
  environ w0 !! "PSRAD_PATH" = Some root →
  __enter__ (provisioner root psrad_files [], w0) = (Return tt, (self1, w1)) →
  func args w1 = (Return X, w2) →
  (∀ f, f ∈ _created_files self1 → removable (fs w2) f) →
  ∃ w3,
    with_psrad_symlinks func args w0 = (Return X, w3) ∧
    __exit__ (self1, w2) = (Return tt, (self1, w3)) ∧
    (∀ f, f ∈ _created_files self1 →
          fs w1 !! f = Some (alias root f) ∧ fs w3 !! f = None) ∧
    (∀ p, p ∉ _created_files self1 → fs w3 !! p = fs w2 !! p).
Proof.
  intros Henv Henter Hfunc Hrm.
  destruct (entered_record _ _ _ _ Henter) as (Hnd & Hnew & _).
  pose proof (remove_loop_ok _ self1 w2 Hnd Hrm) as Hexit.
  rewrite <- exit_eq in Hexit.
  eexists. split_and!.
  - unfold with_psrad_symlinks, func_wrapper.
    by rewrite (with_PsradSymlinks_eq _ _ _ _ _ _ _ _ _ _ Henv Henter Hfunc Hexit).
  - exact Hexit.
  - intros f Hf. split; [by apply Hnew|].
    cbn [fs]. by apply unlink_all_lookup.
  - intros p Hp. cbn [fs]. by apply unlink_all_lookup_other.
Qed.

Lemma with_psrad_symlinks_returns_witness :
  (with_psrad_symlinks successor 41 w_lw_present).1 = Return 42 ∧
  fs (with_psrad_symlinks successor 41 w_lw_present).2 !! "rrtmg_sw.nc" = None.
Proof.
  pose (s1 := (__enter__ (provisioner "/data/psrad" psrad_files [],
                          w_lw_present)).2).
  assert (Henv : environ w_lw_present !! "PSRAD_PATH" = Some "/data/psrad")
    by (vm_compute; reflexivity).
  assert (Henter : __enter__ (provisioner "/data/psrad" psrad_files [],
                              w_lw_present) = (Return tt, (s1.1, s1.2)))
    by (vm_compute; reflexivity).
  assert (Hfunc : successor 41 s1.2 = (Return 42, s1.2))
    by (vm_compute; reflexivity).
  assert (Hrm : ∀ f, f ∈ _created_files s1.1 → removable (fs s1.2) f).
  { intros f Hf. vm_compute in Hf.
    repeat (apply elem_of_cons in Hf as [->|Hf]);
      [..|by apply elem_of_nil in Hf];
      (eexists; split; [vm_compute; reflexivity|discriminate]). }
  destruct (with_psrad_symlinks_returns successor 41 _ _ _ _ _ _
              Henv Henter Hfunc Hrm) as (w3 & -> & _ & Hgone & _).
  split; [done|]. apply Hgone.
  assert (Hrec : _created_files s1.1 =
                 ["ECHAM6_CldOptProps.nc"; "rrtmg_sw.nc"; "libpsrad.so.1"])
    by (vm_compute; reflexivity).
  rewrite Hrec. right. left.
Defined.

(** An acquisition that fails part-way leaves the [with] statement before
    the scope is entered, so [__exit__] is not called: with a directory
    named [rrtmg_lw.nc], the alias [ECHAM6_CldOptProps.nc] is created, the
    second [os.symlink] raises, the work is never started and the alias
    stays. *)
Lemma failed_enter_skips_exit :
  with_PsradSymlinks (successor 0) w_dir_second =
  (Raise (FileExistsError "rrtmg_lw.nc"),
   World {[ "PSRAD_PATH" := "/data/psrad" ]}
         {[ "rrtmg_lw.nc" := Directory;
            "ECHAM6_CldOptProps.nc" :=
              alias "/data/psrad" "ECHAM6_CldOptProps.nc" ]}
         [(DEBUG, "Create symlink ECHAM6_CldOptProps.nc")]
         [sys_stat "ECHAM6_CldOptProps.nc";
          sys_symlink "/data/psrad/ECHAM6_CldOptProps.nc"
            "ECHAM6_CldOptProps.nc";
          sys_stat "rrtmg_lw.nc";
          sys_symlink "/data/psrad/rrtmg_lw.nc" "rrtmg_lw.nc"]).
Proof. by vm_compute. Qed.

(** C6, as the claim words it, fails: protected work that unlinks the alias
    [ECHAM6_CldOptProps.nc] and then raises leaves the scope with
    [FileNotFoundError] from the first removal; [os.remove] is never called on
    [rrtmg_lw.nc], whose alias stays in the working directory. *)
Lemma release_not_performed_when_alias_unlinked :
  (with_PsradSymlinks unlink_then_fail w_empty).1
  = Raise (FileNotFoundError "ECHAM6_CldOptProps.nc") ∧
  fs (with_PsradSymlinks unlink_then_fail w_empty).2 !! "rrtmg_lw.nc"
  = Some (alias "/data/psrad" "rrtmg_lw.nc") ∧
  ¬ release_performed unlink_then_fail w_empty.
Proof.
  split_and!; [by vm_compute..|].
  intros Hclaim.
  pose (s0 := __init__ w_empty).
  pose (s1 := __enter__ (provisioner "/data/psrad" psrad_files [], s0.2)).
  assert (Hin : "rrtmg_lw.nc" ∈ _created_files s1.2.1).
  { assert (Hrec : _created_files s1.2.1 = psrad_files)
      by (vm_compute; reflexivity).
    rewrite Hrec. right. left. }
  apply (Hclaim (provisioner "/data/psrad" psrad_files []) s0.2
           s1.2.1 s1.2.2) in Hin; [|by vm_compute..].
  vm_compute in Hin.
  apply elem_of_cons in Hin as [?|Hin]; [discriminate|].
  by apply elem_of_nil in Hin.
Qed.

(** C6 (amended): once the scope is entered, [__exit__] is run on the state
    the protected work left, whether the work returned or raised: the calls
    of the statement end with removal attempts on a prefix of the record, in
    order.  The statement has the outcome of the work unless [__exit__]
    itself raises.  If every recorded alias can still be unlinked when the
    work ends, [__exit__] returns, every recorded name has been unlinked and
    none exists, and the statement returns what the work returned or raises
    what the work raised. *)
Theorem exit_runs_on_every_path {A} (body : py world A)
    w0 root self1 w1 r w2 :
  environ w0 !! "PSRAD_PATH" = Some root →
  __enter__ (provisioner root psrad_files [], w0) = (Return tt, (self1, w1)) →
  body w1 = (r, w2) →
  ∃ r' w3,
    __exit__ (self1, w2) = (r', (self1, w3)) ∧
    with_PsradSymlinks body w0 =
      (match r' with Return _ => r | Raise e => Raise e end, w3) ∧
    (∃ k, syscalls w3 =
          syscalls w2 ++ (sys_unlink <$> take k (_created_files self1))) ∧
    ((∀ f, f ∈ _created_files self1 → removable (fs w2) f) →
     r' = Return tt ∧
     with_PsradSymlinks body w0 = (r, w3) ∧
     syscalls w3 = syscalls w2 ++ (sys_unlink <$> _created_files self1) ∧
     ∀ f, f ∈ _created_files self1 → fs w3 !! f = None).
Proof.
  intros Henv Henter Hbody.
  destruct (exit_total self1 w2) as (r' & w3 & Hexit).
  pose proof (with_PsradSymlinks_eq _ _ _ _ _ _ _ _ _ _
                Henv Henter Hbody Hexit) as Hwith.
  exists r', w3. split_and!; [done|done|..].
  - rewrite exit_eq in Hexit.
    by apply remove_loop_frame in Hexit as (_ & _ & _ & _ & _ & Hk & _).
  - intros Hrm.
    destruct (entered_record _ _ _ _ Henter) as (Hnd & _ & _).
    pose proof (remove_loop_ok _ self1 w2 Hnd Hrm) as Hok.
    rewrite <- exit_eq, Hexit in Hok. injection Hok as -> ->.
    split_and!; [done|done|done|].
    intros f Hf. cbn [fs]. by apply unlink_all_lookup.
Qed.

Lemma exit_runs_on_every_path_witness :
  with_PsradSymlinks (raise (A := nat) (OtherError "RuntimeError")) w_empty
  = (Raise (OtherError "RuntimeError"),
     (__exit__ (__enter__ (provisioner "/data/psrad" psrad_files [],
                           w_empty)).2).2.2) ∧
  fs (with_PsradSymlinks (raise (A := nat) (OtherError "RuntimeError"))
        w_empty).2 = fs w_empty.
Proof.
  pose (s1 := (__enter__ (provisioner "/data/psrad" psrad_files [],
                          w_empty)).2).
  assert (Henv : environ w_empty !! "PSRAD_PATH" = Some "/data/psrad")
    by (vm_compute; reflexivity).
  assert (Henter : __enter__ (provisioner "/data/psrad" psrad_files [],
                              w_empty) = (Return tt, (s1.1, s1.2)))
    by (vm_compute; reflexivity).
  assert (Hbody : raise (A := nat) (OtherError "RuntimeError") s1.2
                  = (Raise (OtherError "RuntimeError"), s1.2))
    by reflexivity.
  destruct (exit_runs_on_every_path _ _ _ _ _ _ _ Henv Henter Hbody)
    as (r' & w3 & Hexit & _ & _ & Hall).
  destruct Hall as (-> & Hwith & _).
  { intros f Hf. vm_compute in Hf.
    repeat (apply elem_of_cons in Hf as [->|Hf]);
      [..|by apply elem_of_nil in Hf];
      (eexists; split; [vm_compute; reflexivity|discriminate]). }
  split.
  - rewrite Hwith. fold s1. destruct s1 as [self1 w1].
    cbn [fst snd] in Hexit. by rewrite Hexit.
  - by vm_compute.
Defined.

(** C7, as the claim words it, fails: after construction, acquisition and
    release in an empty working directory, every alias is gone but the record
    still lists the four names. *)
Lemma record_not_drained_after_exit :
  ∃ self0 w0 self1 w1,
    __init__ w_empty = (Return self0, w0) ∧
    __enter__ (self0, w0) = (Return tt, (self1, w1)) ∧
    (__exit__ (self1, w1)).1 = Return tt ∧
    fs (__exit__ (self1, w1)).2.2 = ∅ ∧
    _created_files (__exit__ (self1, w1)).2.1 = psrad_files ∧
    ¬ record_drained self1 w1.
Proof.
  pose (s0 := __init__ w_empty).
  pose (s1 := __enter__ (provisioner "/data/psrad" psrad_files [], s0.2)).
  exists (provisioner "/data/psrad" psrad_files []), s0.2, s1.2.1, s1.2.2.
  split_and!; [by vm_compute..|].
  unfold record_drained. vm_compute. discriminate.
Qed.

(** C7 (amended): the record is empty in the instance [__init__] returns;
    [__enter__] only appends to it, whatever its outcome, and what it appends
    are names that had no entry; [__exit__] leaves the record, like the rest
    of the instance, as it found it, whatever its outcome, so that after
    release the record still lists the names acquisition appended; when
    [__exit__] returns, the recorded names have no entry in the working
    directory any more. *)
Theorem created_files_lifecycle :
  (∀ w self w', __init__ w = (Return self, w') → _created_files self = []) ∧
  (∀ self w,
     ∃ new, _created_files (__enter__ (self, w)).2.1
            = _created_files self ++ new ∧
            ∀ f, f ∈ new → fs w !! f = None) ∧
  (∀ self w, (__exit__ (self, w)).2.1 = self) ∧
  (∀ self w,
     (__exit__ (self, w)).1 = Return tt →
     ∀ f, f ∈ _created_files self → fs (__exit__ (self, w)).2.2 !! f = None).
Proof.
  split_and!.
  - intros w self w'. rewrite init_eq.
    destruct (environ w !! "PSRAD_PATH"); [|done].
    by intros [= <- _].
  - intros [root pf created] w.
    destruct (__enter__ ({| _psrad_path := root; _psrad_files := pf;
                            _created_files := created |}, w))
      as [r [self' w']] eqn:Henter.
    unfold __enter__, mbind, py_bind, getattr in Henter.
    cbn [_psrad_files] in Henter.
    apply (enter_loop_inv root pf pf created) in Henter
      as (new & -> & _ & Hnew & _).
    exists new. split; [done|]. intros f Hf. by apply Hnew.
  - intros self w. by destruct (exit_total self w) as (r & w' & ->).
  - intros self w.
    destruct (__exit__ (self, w)) as [r [self' w']] eqn:Hexit.
    cbn [fst snd]. intros -> f Hf.
    rewrite exit_eq in Hexit.
    apply remove_loop_frame in Hexit as (_ & _ & _ & _ & _ & _ & Hret).
    destruct (Hret eq_refl) as [-> _]. by apply unlink_all_lookup.
Qed.

Lemma created_files_lifecycle_witness :
  _created_files (provisioner "/data/psrad" psrad_files []) = [] ∧
  (__exit__ (provisioner "/data/psrad" psrad_files psrad_files, w_empty)).2.1
  = provisioner "/data/psrad" psrad_files psrad_files.
Proof.
  destruct created_files_lifecycle as (Hinit & _ & Hexit & _).
  split.
  - apply (Hinit w_empty _ w_empty). by vm_compute.
  - apply Hexit.
Defined.

(** C9: if a recorded alias has no entry when [__exit__] starts, [__exit__]
    raises: the failure of an [os.remove] on a recorded name is not caught.
    It is the [FileNotFoundError] of that alias when it is the only recorded
    name that cannot be unlinked.  The [with] statement, and so the wrapped
    callable, raises the same exception to its caller, whatever the
    protected work returned or raised. *)
Theorem exit_propagates_missing_alias self w f :
  f ∈ _created_files self →
  fs w !! f = None →
  ∃ e g w',
    __exit__ (self, w) = (Raise e, (self, w')) ∧
    g ∈ _created_files self ∧
    (e = FileNotFoundError g ∨ e = IsADirectoryError g) ∧
    (NoDup (_created_files self) →
     (∀ g', g' ∈ _created_files self → g' ≠ f → removable (fs w) g') →
     e = FileNotFoundError f) ∧
    (∀ A (body : py world A) w0 root w1 r,
       environ w0 !! "PSRAD_PATH" = Some root →
       __enter__ (provisioner root psrad_files [], w0)
       = (Return tt, (self, w1)) →
       body w1 = (r, w) →
       with_PsradSymlinks body w0 = (Raise e, w')).
Proof.
  intros Hf Habs.
  destruct (remove_loop_absent _ self w f Hf Habs)
    as (e & g & w' & Hrun & Hg & He).
  rewrite <- exit_eq in Hrun.
  exists e, g, w'. split_and!; [done..| |].
  - intros Hnd Hrest.
    destruct (remove_loop_only_absent _ self w f Hnd Hf Habs Hrest)
      as [w'' Hrun'].
    rewrite <- exit_eq, Hrun in Hrun'. congruence.
  - intros A body w0 root w1 r Henv Henter Hbody.
    by rewrite (with_PsradSymlinks_eq _ _ _ _ _ _ _ _ _ _
                  Henv Henter Hbody Hrun).
Qed.

Lemma exit_propagates_missing_alias_witness :
  (__exit__ (provisioner "/data/psrad" psrad_files psrad_files, w_empty)).1
  = Raise (FileNotFoundError "ECHAM6_CldOptProps.nc").
Proof.
  assert (Hin : "ECHAM6_CldOptProps.nc"
                ∈ _created_files
                    (provisioner "/data/psrad" psrad_files psrad_files))
    by left.
  assert (Habs : fs w_empty !! "ECHAM6_CldOptProps.nc" = None)
    by (vm_compute; reflexivity).
  destruct (exit_propagates_missing_alias _ _ _ Hin Habs)
    as (e & g & w' & Hrun & _).
  rewrite Hrun in *. cbn [fst]. revert Hrun. vm_compute. by intros [= <- _].
Defined.

(** * Properties of the timestep append *)

(** C8: on an existing file whose time dimension is unlimited with current
    length [t], whose time variable runs over [(time,)], which has a [plev]
    dimension, and for a dictionary whose keys name variables of the file and
    whose values for variables over [(time, plev)] are arrays of [plev]
    length, [append_timestep_netcdf] returns; it has logged one record,
    stored the timestamp at index [t] of the time variable, which lengthens
    the time dimension to [t + 1], and, for every supplied variable over
    exactly [(time, plev)], stored its values in row [t] and changed nothing
    outside that row; every other variable, supplied or not, is as it was. *)
Theorem append_timestep_writes_rows {value : Type} filename
    (data : list (string * payload)) (timestamp : value) st ds t tv pd :
  nc_files st !! filename = Some ds →
  dimensions ds !! "time" = Some {| dim_size := t; isunlimited := true |} →
  variables ds !! "time" = Some tv →
  var_dimensions tv = ["time"] →
  dimensions ds !! "plev" = Some pd →
  NoDup data.*1 →
  (∀ var p, (var, p) ∈ data →
     ∃ v, variables ds !! var = Some v ∧
          (var_dimensions v = ["time"; "plev"] →
           ∃ l, values_of p = array l ∧ length l = dim_size pd)) →
  ∃ ds',
    append_timestep_netcdf filename data timestamp st =
      (Return tt,
       {| nc_files := <[filename := ds']> (nc_files st);
          root_log := root_log st ++ [append_message filename] |}) ∧
    dimensions ds' =
      <["time" := {| dim_size := S t; isunlimited := true |}]> (dimensions ds) ∧
    variables ds' !! "time" =
      Some {| var_dimensions := ["time"];
              var_data := <[[t] := timestamp]> (var_data tv) |} ∧
    (∀ var p v l,
       (var, p) ∈ data →
       variables ds !! var = Some v →
       var_dimensions v = ["time"; "plev"] →
       values_of p = array l →
       ∃ v', variables ds' !! var = Some v' ∧
             var_dimensions v' = ["time"; "plev"] ∧
             (∀ j, j < length l → var_data v' !! [t; j] = l !! j) ∧
             (∀ c, c !! 0 ≠ Some t → var_data v' !! c = var_data v !! c)) ∧
    (∀ name v,
       name ≠ "time" →
       variables ds !! name = Some v →
       var_dimensions v ≠ ["time"; "plev"] ∨ name ∉ data.*1 →
       variables ds' !! name = Some v).
Proof.
  intros Hfile Hdim Htv Htd Hpd Hnd Hdata.
  rewrite (append_timestep_netcdf_eq _ _ _ _ _ _ _ Hfile Hdim Htv Htd).
  set (ds1 := time_appended t timestamp tv ds).
  assert (Hdim1 : dimensions ds1 !! "time"
                  = Some {| dim_size := S t; isunlimited := true |})
    by apply lookup_insert_eq.
  assert (Hpd1 : dimensions ds1 !! "plev" = Some pd)
    by (unfold ds1, time_appended; cbn [dimensions];
        by rewrite lookup_insert_ne).
  assert (Hvar1 : ∀ name, name ≠ "time" →
            variables ds1 !! name = variables ds !! name).
  { intros name Hne. unfold ds1, time_appended. cbn [variables].
    by rewrite lookup_insert_ne. }
  assert (Htv1 : variables ds1 !! "time"
                 = Some {| var_dimensions := ["time"];
                           var_data := <[[t] := timestamp]> (var_data tv) |})
    by apply lookup_insert_eq.
  destruct (append_loop_ok data t data.*1 ds1
              (root_log st ++ [append_message filename])
              {| dim_size := S t; isunlimited := true |})
    as (ds' & Hrun & Hdims & Hframe & Hrows); [done|done|cbn; lia| |].
  { intros var Hin. apply list_elem_of_fmap in Hin as ([var' p] & -> & Hin).
    cbn [fst]. destruct (Hdata var' p Hin) as (v & Hv & Hfit).
    destruct (decide (var' = "time")) as [->|Hne].
    - eexists. split; [exact Htv1|]. done.
    - exists v. split; [by rewrite Hvar1|]. intros Hd.
      destruct (Hfit Hd) as (l & Hl & Hlen).
      exists p, pd. split_and!; [by apply dict_lookup_elem|done| |].
      + rewrite Hl. unfold slice_length. by destruct (isunlimited pd).
      + rewrite Hl. unfold broadcastable. cbn [last]. rewrite Hlen.
        rewrite (bool_decide_eq_true_2 (Some _ = Some _)) by done.
        apply orb_true_r. }
  unfold append_message in *. rewrite Hrun.
  exists ds'. destruct Hframe as (_ & _ & Hvars).
  split_and!.
  - done.
  - by rewrite Hdims.
  - specialize (Hvars "time"). rewrite Htv1 in Hvars.
    destruct (variables ds' !! "time") as [v'|]; [|done].
    destruct Hvars as (_ & Hsame & _). rewrite Hsame; [done|by left].
  - intros var p v l Hin Hv Hd Hl.
    assert (Hne : var ≠ "time") by (intros ->; congruence).
    destruct (Hdata var p Hin) as (v0 & Hv0 & Hfit).
    assert (v0 = v) as -> by congruence.
    destruct (Hfit Hd) as (l' & Hl' & Hlen).
    assert (l' = l) as -> by congruence.
    specialize (Hvars var). rewrite Hvar1, Hv in Hvars by done.
    destruct (variables ds' !! var) as [v'|] eqn:Hv'; [|done].
    destruct Hvars as (Hd' & _ & Hcells).
    exists v'. split_and!; [done|congruence| |done].
    intros j Hj.
    destruct (lookup_lt_is_Some_2 l j Hj) as [a Ha]. rewrite Ha.
    destruct (Hrows var v p pd j a) as (v'' & Hv'' & Hcell).
    + apply list_elem_of_fmap. by exists (var, p).
    + by rewrite Hvar1.
    + done.
    + by apply dict_lookup_elem.
    + done.
    + lia.
    + by rewrite Hl, element_array_row.
    + congruence.
  - intros name v Hne Hv Hout.
    specialize (Hvars name). rewrite Hvar1, Hv in Hvars by done.
    destruct (variables ds' !! name) as [v'|]; [|done].
    destruct Hvars as (_ & Hsame & _). by rewrite Hsame.
Qed.

Lemma append_timestep_writes_rows_witness :
  ∃ ds',
    append_timestep_netcdf "out.nc" sample_data 12%Z sample_store
    = (Return tt,
       {| nc_files := <["out.nc" := ds']> (nc_files sample_store);
          root_log := [append_message "out.nc"] |}) ∧
    ((λ v, var_data v !! [2]) <$> variables ds' !! "time") = Some (Some 12%Z) ∧
    variables ds' !! "X" = variables sample_dataset !! "X".
Proof.
  destruct (append_timestep_writes_rows "out.nc" sample_data 12%Z sample_store
              sample_dataset 2
              {| var_dimensions := ["time"];
                 var_data := {[ [0] := 0%Z; [1] := 6%Z ]} |}
              {| dim_size := 3; isunlimited := false |})
    as (ds' & Hrun & _ & Htime & _ & Hskip);
    [vm_compute; reflexivity..| | |].
  - apply (bool_decide_unpack _). by vm_compute.
  - intros var p Hin. unfold sample_data in Hin.
    repeat (apply elem_of_cons in Hin as [[= -> ->]|Hin]);
      [..|by apply elem_of_nil in Hin].
    + eexists. split; [vm_compute; reflexivity|].
      intros _. by eexists.
    + eexists. split; [vm_compute; reflexivity|].
      intros _. by eexists.
  - exists ds'. split_and!.
    + exact Hrun.
    + rewrite Htime. cbn. by rewrite lookup_insert_eq.
    + erewrite (Hskip "X"); [|done|vm_compute; reflexivity|left; by vm_compute].
      by vm_compute.
Defined.

(** C10, as the claim words it, fails: on a file whose time dimension has a
    fixed length the call opens the file, and the assignment of the
    timestamp one past the end of the time axis raises; nothing is written
    and the time axis is not extended. *)
Lemma timestamp_not_written_on_fixed_time :
  (append_timestep_netcdf "out.nc" [] 12%Z sample_store_fixed).1
  = Raise (OtherError "RuntimeError") ∧
  nc_files (append_timestep_netcdf "out.nc" [] 12%Z sample_store_fixed).2
  = nc_files sample_store_fixed ∧
  ¬ timestamp_always_written "out.nc" [] 12%Z sample_store_fixed.
Proof.
  split_and!; [by vm_compute..|].
  intros Hclaim.
  destruct (Hclaim
              {| dimensions :=
                   <["time" := {| dim_size := 2; isunlimited := false |}]>
                     (dimensions sample_dataset);
                 variables := variables sample_dataset |}
              {| dim_size := 2; isunlimited := false |})
    as (ds' & d' & Hfile & Hdim & Hsize); [by vm_compute..|].
  vm_compute in Hfile. injection Hfile as <-.
  vm_compute in Hdim. injection Hdim as <-.
  vm_compute in Hsize. discriminate.
Qed.

(** C10 (amended): on a file whose time dimension is unlimited with current
    length [t] and whose time variable runs over [(time,)], and for any
    dictionary whatever, [append_timestep_netcdf] stores the timestamp at
    index [t] of the time variable before the loop over the dictionary, so
    that the file it leaves, whether the loop returned or raised, has a time
    dimension of length [t + 1] with the timestamp at index [t]; when the
    dictionary is empty or names no variable over [(time, plev)], the call
    returns and that is the only change. *)
Theorem timestamp_written_first {value : Type} filename
    (data : list (string * payload)) (timestamp : value) st ds t tv :
  nc_files st !! filename = Some ds →
  dimensions ds !! "time" = Some {| dim_size := t; isunlimited := true |} →
  variables ds !! "time" = Some tv →
  var_dimensions tv = ["time"] →
  ∃ r ds',
    append_timestep_netcdf filename data timestamp st =
      (r, {| nc_files := <[filename := ds']> (nc_files st);
             root_log := root_log st ++ [append_message filename] |}) ∧
    dimensions ds' !! "time"
    = Some {| dim_size := S t; isunlimited := true |} ∧
    variables ds' !! "time" =
      Some {| var_dimensions := ["time"];
              var_data := <[[t] := timestamp]> (var_data tv) |} ∧
    ((∀ var, var ∈ data.*1 →
        ∃ v, variables ds !! var = Some v ∧
             var_dimensions v ≠ ["time"; "plev"]) →
     r = Return tt ∧ ds' = time_appended t timestamp tv ds).
Proof.
  intros Hfile Hdim Htv Htd.
  rewrite (append_timestep_netcdf_eq _ _ _ _ _ _ _ Hfile Hdim Htv Htd).
  set (ds1 := time_appended t timestamp tv ds).
  assert (Hdim1 : dimensions ds1 !! "time"
                  = Some {| dim_size := S t; isunlimited := true |})
    by apply lookup_insert_eq.
  assert (Htv1 : variables ds1 !! "time"
                 = Some {| var_dimensions := ["time"];
                           var_data := <[[t] := timestamp]> (var_data tv) |})
    by apply lookup_insert_eq.
  fold (append_message filename).
  destruct (for_in data.*1 (append_timestep_netcdf_body data t)
              (ds1, root_log st ++ [append_message filename]))
    as [r [ds' lg']] eqn:Hrun.
  pose proof Hrun as Hframe.
  apply (append_loop_rows_assigned _ _ _ _ _ _ _ _ _ Hdim1) in Hframe
    as (-> & Hdims & _ & Hvars); [|cbn; lia].
  exists r, ds'. split_and!.
  - done.
  - by rewrite Hdims.
  - specialize (Hvars "time"). rewrite Htv1 in Hvars.
    destruct (variables ds' !! "time") as [v'|]; [|done].
    destruct Hvars as (_ & Hsame & _). rewrite Hsame; [done|by left].
  - intros Hnone.
    rewrite append_loop_skip in Hrun; [by injection Hrun as <- <-|].
    intros var Hin. destruct (Hnone var Hin) as (v & Hv & Hd).
    destruct (decide (var = "time")) as [->|Hne].
    + eexists. split; [exact Htv1|done].
    + exists v. split; [|done]. unfold ds1, time_appended. cbn [variables].
      by rewrite lookup_insert_ne.
Qed.

Lemma timestamp_written_first_witness :
  ∃ r ds',
    append_timestep_netcdf "out.nc" [] 12%Z sample_store
    = (r, {| nc_files := <["out.nc" := ds']> (nc_files sample_store);
             root_log := [append_message "out.nc"] |}) ∧
    r = Return tt ∧
    dimensions ds' !! "time" = Some {| dim_size := 3; isunlimited := true |}.
Proof.
  destruct (timestamp_written_first "out.nc" [] 12%Z sample_store
              sample_dataset 2
              {| var_dimensions := ["time"];
                 var_data := {[ [0] := 0%Z; [1] := 6%Z ]} |})
    as (r & ds' & Hrun & Hdims & _ & Hskip);
    [vm_compute; reflexivity..|].
  exists r, ds'. split_and!.
  - exact Hrun.
  - apply Hskip. intros var Hin. by apply elem_of_nil in Hin.
  - exact Hdims.
Defined.

(** * Further properties *)

(** ** More facts about the loops *)

Section loops.
Context {S A : Type}.
Implicit Types (body : A → py S unit) (s : S).

(** A loop over [l1 ++ l2] is the loop over [l1] followed, unless it raised,
    by the loop over [l2]. *)
Lemma for_in_app (l1 l2 : list A) body s :
  for_in (l1 ++ l2) body s =
  match for_in l1 body s with
  | (Return _, s') => for_in l2 body s'
  | (Raise e, s') => (Raise e, s')
  end.
Proof.
  revert s. induction l1 as [|x l1 IH]; intros s; [done|].
  simpl. unfold mbind, py_bind.
  destruct (body x s) as [[[]|e] s1]; [apply IH|done].
Qed.

Lemma for_in_ext (l : list A) body body' s :
  (∀ x, x ∈ l → body x = body' x) →
  for_in l body s = for_in l body' s.
Proof.
  revert s. induction l as [|x l IH]; intros s Hext; [done|].
  simpl. unfold mbind, py_bind. rewrite (Hext x) by left.
  destruct (body' x s) as [[[]|e] s1]; [|done].
  apply IH. intros y Hy. apply Hext. by right.
Qed.
End loops.

Section provisioner_facts.
Implicit Types (m : gmap string node) (f p root : string) (w : world)
  (self : PsradSymlinks) (l files created : list string).

Lemma unlink_link_all root l m :
  (∀ f, f ∈ l → m !! f = None) →
  unlink_all l (link_all root l m) = m.
Proof.
  intros Habs. apply map_eq. intros p.
  destruct (decide (p ∈ l)) as [Hin|Hout].
  - rewrite unlink_all_lookup by done. by rewrite Habs.
  - by rewrite unlink_all_lookup_other, link_all_lookup_other.
Qed.

Lemma stat_follow_regular fuel m p c :
  m !! p = Some (RegularFile c) → stat_follow fuel m p = Some (RegularFile c).
Proof. intros Hp. destruct fuel; simpl; by rewrite Hp. Qed.

Lemma stat_follow_symlink fuel m p t :
  m !! p = Some (Symlink t) →
  stat_follow (S fuel) m p = stat_follow fuel m t.
Proof. intros Hp. simpl. by rewrite Hp. Qed.

Lemma isfile_link_all root l m p :
  NoDup l → (∀ f, f ∈ l → m !! f = None) →
  isfile m p = true → isfile (link_all root l m) p = true.
Proof.
  unfold link_all. revert m. induction l as [|x l IH]; intros m Hnd Habs Hp.
  - done.
  - apply NoDup_cons in Hnd as [Hx Hnd]. simpl. apply IH; [done| |].
    + intros f Hf. rewrite lookup_insert_ne by (intros ->; done).
      apply Habs. by right.
    + apply isfile_insert_fresh; [|done]. apply Habs. by left.
Qed.

Lemma missing_none_absent m files :
  (∀ f, f ∈ files → is_Some (m !! f)) → missing m files = [].
Proof.
  induction files as [|x l IH]; intros Hall; [done|].
  rewrite missing_cons_present by (apply Hall; by left).
  apply IH. intros f Hf. apply Hall. by right.
Qed.

Lemma enter_trace_all_present root m files :
  (∀ f, f ∈ files → is_Some (m !! f)) →
  enter_trace root m files = sys_stat <$> files.
Proof.
  unfold enter_trace. induction files as [|x l IH]; intros Hall; [done|].
  rewrite bind_cons, fmap_cons, IH by (intros f Hf; apply Hall; by right).
  destruct (Hall x) as [n Hn]; [by left|].
  rewrite decide_False by congruence. done.
Qed.

(** When the loop of [__enter__] over distinct names raises, it is the
    [FileExistsError] of a name that had an entry from the start. *)
Lemma enter_loop_raise root pf files :
  ∀ created w e self' w',
    NoDup files →
    for_in files __enter___body (provisioner root pf created, w)
    = (Raise e, (self', w')) →
    ∃ g, g ∈ files ∧ e = FileExistsError g ∧ is_Some (fs w !! g).
Proof.
  induction files as [|x l IH]; intros created w e self' w' Hnd Hrun.
  - done.
  - apply NoDup_cons in Hnd as [Hx Hnd].
    change (for_in (x :: l) __enter___body)
      with (__enter___body x ;; for_in l __enter___body) in Hrun.
    unfold mbind, py_bind at 1 in Hrun. rewrite enter_body_eq in Hrun.
    cbn zeta in Hrun.
    destruct (isfile (fs w) x) eqn:Hfile.
    + apply IH in Hrun as (g & Hg & He & Hsome); [|done]. exists g.
      split_and!; [by right|done|done].
    + destruct (fs w !! x) as [n|] eqn:Hx'.
      * injection Hrun as <- <- <-. exists x.
        split_and!; [by left|done|]. by rewrite Hx'.
      * cbn [provisioner _psrad_path _psrad_files _created_files] in Hrun.
        apply IH in Hrun as (g & Hg & He & Hsome); [|done]. exists g.
        cbn [fs emit with_fs issue] in Hsome.
        rewrite lookup_insert_ne in Hsome by (intros ->; done).
        split_and!; [by right|done|done].
Qed.
Lemma stat_follow_subseteq fuel m m' p n :
  m ⊆ m' → stat_follow fuel m p = Some n → stat_follow fuel m' p = Some n.
Proof.
  intros Hsub. revert p. induction fuel as [|fuel IH]; intros p; simpl.
  - destruct (m !! p) as [x|] eqn:Hp; [|done].
    by rewrite (lookup_weaken _ _ _ _ Hp Hsub).
  - destruct (m !! p) as [x|] eqn:Hp; [|done].
    rewrite (lookup_weaken _ _ _ _ Hp Hsub). destruct x; auto.
Qed.

Lemma isfile_subseteq m m' p :
  m ⊆ m' → isfile m p = true → isfile m' p = true.
Proof.
  unfold isfile. intros Hsub Hp.
  destruct (stat_follow MAXSYMLINKS m p) as [n|] eqn:Hs; [|done].
  by rewrite (stat_follow_subseteq _ _ _ _ _ Hsub Hs).
Qed.

(** The loop of [__enter__] only adds entries. *)
Lemma enter_loop_subseteq root pf files created w r self' w' :
  for_in files __enter___body (provisioner root pf created, w)
  = (r, (self', w')) →
  fs w ⊆ fs w'.
Proof.
  intros Hrun.
  apply enter_loop_inv in Hrun as (new & _ & _ & Hnew & Hold & _).
  apply map_subseteq_spec. intros p n Hp.
  rewrite Hold; [done|]. intros Hin.
  destruct (Hnew p Hin) as (_ & ? & _). congruence.
Qed.

(** When the loop of [__enter__] returns, every name it went through
    resolves to a regular file, unless it had no entry. *)
Lemma enter_loop_return root pf files :
  ∀ created w self' w',
    for_in files __enter___body (provisioner root pf created, w)
    = (Return tt, (self', w')) →
    ∀ f, f ∈ files → isfile (fs w') f = true ∨ fs w !! f = None.
Proof.
  induction files as [|x l IH]; intros created w self' w' Hrun f Hf.
  - by apply elem_of_nil in Hf.
  - change (for_in (x :: l) __enter___body)
      with (__enter___body x ;; for_in l __enter___body) in Hrun.
    unfold mbind, py_bind at 1 in Hrun. rewrite enter_body_eq in Hrun.
    cbn zeta in Hrun.
    destruct (isfile (fs w) x) eqn:Hfile.
    + apply elem_of_cons in Hf as [->|Hf].
      * left. apply (isfile_subseteq (fs w)); [|done].
        by apply enter_loop_subseteq in Hrun.
      * by apply (IH _ _ _ _ Hrun).
    + destruct (fs w !! x) as [n|] eqn:Hx; [done|].
      cbn [provisioner _psrad_path _psrad_files _created_files] in Hrun.
      apply elem_of_cons in Hf as [->|Hf]; [by right|].
      destruct (IH _ _ _ _ Hrun f Hf) as [?|Hnone]; [by left|right].
      cbn [fs emit with_fs issue] in Hnone.
      by apply lookup_insert_None in Hnone as [? _].
Qed.
End provisioner_facts.


(** X1: when every required name is free or resolves to a regular file, and
    the resource root holds a regular file for every required name,
    [__enter__] returns and every required name then resolves to a regular
    file in the working directory. *)
Theorem enter_makes_files_available root created w :
  (∀ f, f ∈ psrad_files → fs w !! f = None ∨ isfile (fs w) f = true) →
  (∀ f, f ∈ psrad_files →
        ∃ c, fs w !! os_path_join root f = Some (RegularFile c)) →
  ∃ self1 w1,
    __enter__ (provisioner root psrad_files created, w)
    = (Return tt, (self1, w1)) ∧
    ∀ f, f ∈ psrad_files → isfile (fs w1) f = true.
Proof.
  intros Hok Hres. rewrite (enter_ok root created w Hok).
  eexists _, _. split; [done|]. cbn [fs].
  set (new := missing (fs w) psrad_files).
  assert (Hnd : NoDup new) by apply NoDup_missing, NoDup_psrad_files.
  assert (Habs : ∀ f, f ∈ new → fs w !! f = None)
    by (intros f Hf; by apply elem_of_missing in Hf as [_ ?]).
  intros f Hf. destruct (Hok f Hf) as [Hnone|Hfile].
  - assert (f ∈ new) by (by apply elem_of_missing).
    destruct (Hres f Hf) as [c Hc].
    unfold isfile, MAXSYMLINKS.
    rewrite (stat_follow_symlink _ _ _ (os_path_join root f))
      by (by apply link_all_lookup).
    erewrite stat_follow_regular; [done|].
    rewrite link_all_lookup_other; [done|].
    intros Hin. apply Habs in Hin. congruence.
  - by apply isfile_link_all.
Qed.

Lemma enter_makes_files_available_witness :
  isfile (fs (__enter__ (provisioner "/data/psrad" psrad_files [],
                         w_resources)).2.2) "libpsrad.so.1" = true.
Proof.
  destruct (enter_makes_files_available "/data/psrad" [] w_resources)
    as (self1 & w1 & Hrun & Hall).
  - intros f Hf. left.
    unfold psrad_files in Hf.
    repeat (apply elem_of_cons in Hf as [->|Hf]);
      [..|by apply elem_of_nil in Hf]; vm_compute; reflexivity.
  - intros f Hf. unfold psrad_files in Hf.
    repeat (apply elem_of_cons in Hf as [->|Hf]);
      [..|by apply elem_of_nil in Hf]; eexists; vm_compute; reflexivity.
  - rewrite Hrun. apply Hall. do 3 right. left.
Defined.

(** X2: in a working directory where every required name already resolves to
    a regular file (as inside an enclosing scope), the wrapped call is the
    call itself: nothing is created, recorded, logged or removed, and the
    only filesystem calls added are the four [stat]s before [func] runs. *)
Theorem wrapper_in_provisioned_directory {A B} (func : A → py world B)
    (args : A) w root :
  environ w !! "PSRAD_PATH" = Some root →
  (∀ f, f ∈ psrad_files → isfile (fs w) f = true) →
  with_psrad_symlinks func args w = func args (stats_issued w) ∧
  __enter__ (provisioner root psrad_files [], w)
  = (Return tt, (provisioner root psrad_files [], stats_issued w)).
Proof.
  intros Henv Hall.
  assert (Hsome : ∀ f, f ∈ psrad_files → is_Some (fs w !! f))
    by (intros f Hf; by apply isfile_lookup, Hall).
  assert (Henter : __enter__ (provisioner root psrad_files [], w)
            = (Return tt, (provisioner root psrad_files [], stats_issued w))).
  { rewrite enter_ok by (intros f Hf; right; by apply Hall).
    rewrite (missing_none_absent _ _ Hsome),
      (enter_trace_all_present _ _ _ Hsome).
    cbn [app fmap list_fmap link_all foldl]. by rewrite app_nil_r. }
  split; [|done].
  unfold with_psrad_symlinks, func_wrapper, with_PsradSymlinks.
  rewrite init_eq, Henv, Henter.
  destruct (func args (stats_issued w)) as [r w2].
  rewrite exit_eq. cbn [provisioner _created_files].
  unfold remove_loop. cbn [for_in]. unfold mret, py_ret. done.
Qed.

Lemma wrapper_in_provisioned_directory_witness :
  with_psrad_symlinks successor 41
    (__enter__ (provisioner "/data/psrad" psrad_files [], w_resources)).2.2
  = (Return 42,
     stats_issued
       (__enter__ (provisioner "/data/psrad" psrad_files [],
                   w_resources)).2.2).
Proof.
  set (w1 := (__enter__ (provisioner "/data/psrad" psrad_files [],
                         w_resources)).2.2).
  assert (Henv : environ w1 !! "PSRAD_PATH" = Some "/data/psrad")
    by (vm_compute; reflexivity).
  assert (Hall : ∀ f, f ∈ psrad_files → isfile (fs w1) f = true).
  { intros f Hf. unfold psrad_files in Hf.
    repeat (apply elem_of_cons in Hf as [->|Hf]);
      [..|by apply elem_of_nil in Hf]; vm_compute; reflexivity. }
  destruct (wrapper_in_provisioned_directory successor 41 w1 "/data/psrad"
              Henv Hall) as [-> _].
  reflexivity.
Defined.


(** X3: [__enter__] does not look at the resource root.  From a working
    directory without the four names it creates the four aliases also when
    the file one of them points at does not exist; that alias dangles, and a
    later acquisition in that state, by any instance, raises
    [FileExistsError] for a required name and leaves the working directory
    as it is. *)
Theorem dangling_alias_blocks_next_enter root w f root' created' :
  (∀ g, g ∈ psrad_files → fs w !! g = None) →
  f ∈ psrad_files →
  fs w !! os_path_join root f = None →
  os_path_join root f ∉ psrad_files →
  ∃ w1,
    __enter__ (provisioner root psrad_files [], w)
    = (Return tt, (provisioner root psrad_files psrad_files, w1)) ∧
    fs w1 !! f = Some (alias root f) ∧
    isfile (fs w1) f = false ∧
    ∃ g w2,
      __enter__ (provisioner root' psrad_files created', w1)
      = (Raise (FileExistsError g),
         (provisioner root' psrad_files created', w2)) ∧
      g ∈ psrad_files ∧ fs w2 = fs w1.
Proof.
  intros Hfree Hf Htarget Hout.
  assert (Hrun := enter_ok root [] w).
  lapply Hrun; [clear Hrun; intros Hrun | intros g Hg; left; by apply Hfree].
  rewrite (missing_all_absent _ _ Hfree) in Hrun. cbn [app] in Hrun.
  eexists. split; [exact Hrun|]. cbn [fs].
  set (m1 := link_all root psrad_files (fs w)).
  assert (Hlink : ∀ g, g ∈ psrad_files → m1 !! g = Some (alias root g))
    by (intros g Hg; by apply link_all_lookup; [apply NoDup_psrad_files|]).
  assert (Hdangle : isfile m1 f = false).
  { unfold isfile, MAXSYMLINKS.
    rewrite (stat_follow_symlink _ _ _ (os_path_join root f))
      by (by apply Hlink).
    cbn [stat_follow]. unfold m1.
    rewrite link_all_lookup_other by done. by rewrite Htarget. }
  split_and!; [by apply Hlink|done|].
  set (w1 := {| environ := environ w; fs := m1 |}).
  destruct (__enter__ (provisioner root' psrad_files created', w1))
    as [r [self2 w2]] eqn:Henter.
  unfold __enter__, mbind, py_bind, getattr in Henter.
  cbn [provisioner _psrad_files] in Henter.
  pose proof Henter as Hinv.
  apply enter_loop_inv in Hinv as (new & -> & _ & Hnew & Hold & _).
  assert (Hnil : new = []).
  { destruct new as [|p new]; [done|].
    destruct (Hnew p) as (Hp & Hnone & _); [by left|].
    cbn [fs w1] in Hnone. rewrite Hlink in Hnone by done. done. }
  subst new. rewrite app_nil_r.
  assert (Hfs : fs w2 = fs w1).
  { apply map_eq. intros p. apply Hold. intros Hin.
    by apply elem_of_nil in Hin. }
  destruct r as [[]|e].
  - destruct (enter_loop_return _ _ _ _ _ _ _ Henter f Hf) as [Hfile|Hnone].
    + rewrite Hfs in Hfile. cbn [fs w1] in Hfile. congruence.
    + cbn [fs w1] in Hnone. rewrite Hlink in Hnone by done. done.
  - apply enter_loop_raise in Henter as (g & Hg & -> & _);
      [|apply NoDup_psrad_files].
    by exists g, w2.
Qed.

Lemma dangling_alias_blocks_next_enter_witness :
  (__enter__ (provisioner "/data/psrad" psrad_files [], w_empty)).1
  = Return tt ∧
  ∃ g,
    (__enter__ (provisioner "/data/psrad" psrad_files [],
                (__enter__ (provisioner "/data/psrad" psrad_files [],
                            w_empty)).2.2)).1
    = Raise (FileExistsError g).
Proof.
  destruct (dangling_alias_blocks_next_enter "/data/psrad" w_empty
              "rrtmg_sw.nc" "/data/psrad" [])
    as (w1 & Hrun & _ & _ & g & w2 & Hnext & _).
  - intros g Hg. unfold psrad_files in Hg.
    repeat (apply elem_of_cons in Hg as [->|Hg]);
      [..|by apply elem_of_nil in Hg]; vm_compute; reflexivity.
  - right. right. left.
  - vm_compute. reflexivity.
  - apply (bool_decide_unpack _). by vm_compute.
  - rewrite Hrun. cbn [fst snd]. split; [done|].
    exists g. by rewrite Hnext.
Defined.

(** X4: whatever its outcome, [__enter__] leaves the environment, the
    instance's resource root and list of names, and every existing entry of
    the working directory as they were; every entry it adds is the alias of
    a required name and is in the record, also when it raises. *)
Theorem enter_only_adds_recorded_aliases self w :
  let self' := (__enter__ (self, w)).2.1 in
  let w' := (__enter__ (self, w)).2.2 in
  environ w' = environ w ∧
  _psrad_path self' = _psrad_path self ∧
  _psrad_files self' = _psrad_files self ∧
  (∀ p, is_Some (fs w !! p) → fs w' !! p = fs w !! p) ∧
  (∀ p, fs w !! p = None →
        fs w' !! p = None ∨
        (p ∈ _psrad_files self ∧ p ∈ _created_files self' ∧
         fs w' !! p = Some (alias (_psrad_path self) p))).
Proof.
  destruct self as [root pf created].
  destruct (__enter__ ({| _psrad_path := root; _psrad_files := pf;
                          _created_files := created |}, w))
    as [r [self' w']] eqn:Henter.
  cbn [fst snd]. unfold __enter__, mbind, py_bind, getattr in Henter.
  cbn [_psrad_files] in Henter.
  apply (enter_loop_inv root pf pf created) in Henter
    as (new & -> & _ & Hnew & Hold & Henv).
  cbn [provisioner _psrad_path _psrad_files _created_files].
  split_and!; [done..| |].
  - intros p [n Hn]. apply Hold. intros Hin.
    destruct (Hnew p Hin) as (_ & ? & _). congruence.
  - intros p Hp. destruct (decide (p ∈ new)) as [Hin|Hout].
    + right. destruct (Hnew p Hin) as (? & _ & ?).
      split_and!; [done| |done]. apply elem_of_app. by right.
    + left. by rewrite Hold.
Qed.

Lemma enter_only_adds_recorded_aliases_witness :
  fs (__enter__ (provisioner "/data/psrad" psrad_files [],
                 w_dir_second)).2.2 !! "rrtmg_lw.nc" = Some Directory.
Proof.
  destruct (enter_only_adds_recorded_aliases
              (provisioner "/data/psrad" psrad_files []) w_dir_second)
    as (_ & _ & _ & Hkeep & _).
  rewrite Hkeep; [by vm_compute|]. eexists. by vm_compute.
Defined.

(** X5: if [PSRAD_PATH] is set, acquisition succeeds and [func] leaves the
    working directory as it found it, the wrapped call has the outcome of
    [func], return value or exception, and leaves the working directory
    exactly as it was before the call. *)
Theorem wrapper_restores_directory {A B} (func : A → py world B) (args : A)
    w0 root self1 w1 r w2 :
  environ w0 !! "PSRAD_PATH" = Some root →
  __enter__ (provisioner root psrad_files [], w0) = (Return tt, (self1, w1)) →
  func args w1 = (r, w2) →
  fs w2 = fs w1 →
  ∃ w3,
    with_psrad_symlinks func args w0 = (r, w3) ∧
    fs w3 = fs w0 ∧ environ w3 = environ w2 ∧ log w3 = log w2.
Proof.
  intros Henv Henter Hfunc Hsame.
  destruct (entered_record _ _ _ _ Henter) as (Hnd & Hnew & Hold).
  assert (Hrm : ∀ p, p ∈ _created_files self1 → removable (fs w2) p).
  { intros p Hp. destruct (Hnew p Hp) as (_ & _ & Hal).
    exists (alias root p). by rewrite Hsame. }
  pose proof (remove_loop_ok _ self1 w2 Hnd Hrm) as Hexit.
  rewrite <- exit_eq in Hexit.
  eexists. split_and!.
  - unfold with_psrad_symlinks, func_wrapper.
    by rewrite (with_PsradSymlinks_eq _ _ _ _ _ _ _ _ _ _
                  Henv Henter Hfunc Hexit).
  - cbn [fs]. apply map_eq. intros p. rewrite Hsame.
    destruct (decide (p ∈ _created_files self1)) as [Hin|Hout].
    + rewrite unlink_all_lookup by done.
      destruct (Hnew p Hin) as (_ & -> & _). done.
    + rewrite unlink_all_lookup_other by done. by apply Hold.
  - done.
  - done.
Qed.

Lemma wrapper_restores_directory_witness :
  (with_psrad_symlinks always_fails tt w_lw_present).1
  = Raise (OtherError "RuntimeError") ∧
  fs (with_psrad_symlinks always_fails tt w_lw_present).2 = fs w_lw_present.
Proof.
  pose (s1 := (__enter__ (provisioner "/data/psrad" psrad_files [],
                          w_lw_present)).2).
  assert (Henv : environ w_lw_present !! "PSRAD_PATH" = Some "/data/psrad")
    by (vm_compute; reflexivity).
  assert (Henter : __enter__ (provisioner "/data/psrad" psrad_files [],
                              w_lw_present) = (Return tt, (s1.1, s1.2)))
    by (vm_compute; reflexivity).
  assert (Hfunc : always_fails tt s1.2
                  = (Raise (OtherError "RuntimeError"), s1.2))
    by reflexivity.
  destruct (wrapper_restores_directory always_fails tt _ _ _ _ _ _
              Henv Henter Hfunc eq_refl) as (w3 & Hrun & Hfs & _).
  rewrite Hrun. cbn [fst snd]. by rewrite Hfs.
Defined.

(** X6: when [__enter__] raises, the wrapped call raises the same exception,
    a [FileExistsError] for a required name, without calling [func] and
    without calling [__exit__]: the aliases created before the failure are
    still in the working directory. *)
Theorem wrapper_leaks_after_failed_enter {A B} (func : A → py world B)
    (args : A) w0 root e self1 w1 :
  environ w0 !! "PSRAD_PATH" = Some root →
  __enter__ (provisioner root psrad_files [], w0) = (Raise e, (self1, w1)) →
  with_psrad_symlinks func args w0 = (Raise e, w1) ∧
  (∃ g, g ∈ psrad_files ∧ e = FileExistsError g ∧ is_Some (fs w0 !! g)) ∧
  (∀ p, p ∈ _created_files self1 →
        fs w0 !! p = None ∧ fs w1 !! p = Some (alias root p)).
Proof.
  intros Henv Henter. split_and!.
  - unfold with_psrad_symlinks, func_wrapper, with_PsradSymlinks.
    by rewrite init_eq, Henv, Henter.
  - unfold __enter__, mbind, py_bind, getattr in Henter.
    cbn [provisioner _psrad_files] in Henter.
    apply enter_loop_raise in Henter as (g & Hg & -> & Hsome);
      [|apply NoDup_psrad_files].
    by exists g.
  - unfold __enter__, mbind, py_bind, getattr in Henter.
    cbn [provisioner _psrad_files] in Henter.
    apply enter_loop_inv in Henter as (new & -> & _ & Hnew & _).
    intros p Hp. cbn [provisioner _created_files app] in Hp.
    by destruct (Hnew p Hp) as (_ & ? & ?).
Qed.

Lemma wrapper_leaks_after_failed_enter_witness :
  with_psrad_symlinks successor 0 w_dir_second
  = (Raise (FileExistsError "rrtmg_lw.nc"),
     (__enter__ (provisioner "/data/psrad" psrad_files [],
                 w_dir_second)).2.2) ∧
  fs (with_psrad_symlinks successor 0 w_dir_second).2
    !! "ECHAM6_CldOptProps.nc"
  = Some (alias "/data/psrad" "ECHAM6_CldOptProps.nc").
Proof.
  pose (s1 := (__enter__ (provisioner "/data/psrad" psrad_files [],
                          w_dir_second)).2).
  assert (Henv : environ w_dir_second !! "PSRAD_PATH" = Some "/data/psrad")
    by (vm_compute; reflexivity).
  assert (Henter : __enter__ (provisioner "/data/psrad" psrad_files [],
                              w_dir_second)
                   = (Raise (FileExistsError "rrtmg_lw.nc"), (s1.1, s1.2)))
    by (vm_compute; reflexivity).
  destruct (wrapper_leaks_after_failed_enter successor 0 _ _ _ _ _
              Henv Henter) as (Hrun & _ & Hleak).
  split; [exact Hrun|]. rewrite Hrun. cbn [snd].
  apply Hleak. vm_compute. left.
Defined.


Section release_facts.
Implicit Types (f p : string) (w : world) (self : PsradSymlinks)
  (l : list string).

Lemma remove_loop_app l1 l2 self w :
  remove_loop (l1 ++ l2) (self, w) =
  match remove_loop l1 (self, w) with
  | (Return _, s') => remove_loop l2 s'
  | (Raise e, s') => (Raise e, s')
  end.
Proof. apply for_in_app. Qed.
End release_facts.

(** X7: [__exit__] removes the recorded names in order and stops at the first
    one that cannot be unlinked: when the names recorded before [f] can be
    unlinked and [f] has no entry or is a directory, [__exit__] raises
    [FileNotFoundError], respectively [IsADirectoryError], for [f]; the
    names before [f] are gone, and [f] and the names recorded after it are
    as they were. *)
Theorem exit_stops_at_first_failure self w l1 f l2 :
  _created_files self = l1 ++ f :: l2 →
  NoDup (l1 ++ f :: l2) →
  (∀ p, p ∈ l1 → removable (fs w) p) →
  fs w !! f = None ∨ fs w !! f = Some Directory →
  ∃ w',
    __exit__ (self, w) =
      (Raise (match fs w !! f with
              | Some _ => IsADirectoryError f
              | None => FileNotFoundError f
              end),
       (self, w')) ∧
    fs w' = unlink_all l1 (fs w) ∧
    syscalls w' = syscalls w ++ (sys_unlink <$> l1 ++ [f]) ∧
    (∀ p, p ∈ l1 → fs w' !! p = None) ∧
    (∀ p, p ∈ f :: l2 → fs w' !! p = fs w !! p).
Proof.
  intros Hrec Hnd Hrm Hf.
  apply NoDup_app in Hnd as (Hnd1 & Hdisj & Hnd2).
  rewrite exit_eq, Hrec, remove_loop_app, (remove_loop_ok l1) by done.
  rewrite remove_loop_cons. cbn zeta. cbn [fs].
  assert (Hkeep : ∀ p, p ∈ f :: l2 → unlink_all l1 (fs w) !! p = fs w !! p).
  { intros p Hp. apply unlink_all_lookup_other. intros Hin.
    by apply (Hdisj p). }
  rewrite (Hkeep f) by left.
  assert (Hcalls : ∀ c : list syscall,
            (c ++ (sys_unlink <$> l1)) ++ [sys_unlink f]
            = c ++ (sys_unlink <$> l1 ++ [f])).
  { intros c. by rewrite fmap_app, (assoc_L (++)). }
  destruct Hf as [-> | ->]; eexists; (split_and!; [done|done|..]).
  - cbn [syscalls issue]. apply Hcalls.
  - intros p Hp. by apply unlink_all_lookup.
  - done.
  - cbn [syscalls issue]. apply Hcalls.
  - intros p Hp. by apply unlink_all_lookup.
  - done.
Qed.

Lemma exit_stops_at_first_failure_witness :
  let s1 := (__enter__ (provisioner "/data/psrad" psrad_files [],
                        w_empty)).2 in
  let w := with_fs (delete "rrtmg_lw.nc" (fs s1.2)) s1.2 in
  (__exit__ (s1.1, w)).1 = Raise (FileNotFoundError "rrtmg_lw.nc") ∧
  fs (__exit__ (s1.1, w)).2.2 !! "ECHAM6_CldOptProps.nc" = None ∧
  fs (__exit__ (s1.1, w)).2.2 !! "rrtmg_sw.nc"
  = Some (alias "/data/psrad" "rrtmg_sw.nc").
Proof.
  intros s1 w.
  destruct (exit_stops_at_first_failure s1.1 w ["ECHAM6_CldOptProps.nc"]
              "rrtmg_lw.nc" ["rrtmg_sw.nc"; "libpsrad.so.1"])
    as (w' & Hrun & _ & _ & Hgone & Hkept).
  - by vm_compute.
  - apply (bool_decide_unpack _). by vm_compute.
  - intros p Hp. apply list_elem_of_singleton in Hp as ->.
    eexists. split; [vm_compute; reflexivity|discriminate].
  - left. by vm_compute.
  - rewrite Hrun. cbn [fst snd]. split_and!.
    + by vm_compute.
    + apply Hgone. left.
    + rewrite Hkept by (right; left). by vm_compute.
Defined.

(** X8: an instance keeps its record after [__exit__], so it cannot be used
    for a second scope: from a working directory without the four names,
    entering and leaving twice with the same instance records every name
    twice, and the second [__exit__] unlinks the four aliases and then
    raises [FileNotFoundError] for the first name; the working directory is
    back to what it was all the same. *)
Theorem instance_reuse_fails_on_second_exit root w0 :
  (∀ f, f ∈ psrad_files → fs w0 !! f = None) →
  ∃ w1 w2 w3 w4,
    __enter__ (provisioner root psrad_files [], w0)
    = (Return tt, (provisioner root psrad_files psrad_files, w1)) ∧
    __exit__ (provisioner root psrad_files psrad_files, w1)
    = (Return tt, (provisioner root psrad_files psrad_files, w2)) ∧
    __enter__ (provisioner root psrad_files psrad_files, w2)
    = (Return tt,
       (provisioner root psrad_files (psrad_files ++ psrad_files), w3)) ∧
    __exit__ (provisioner root psrad_files (psrad_files ++ psrad_files), w3)
    = (Raise (FileNotFoundError "ECHAM6_CldOptProps.nc"),
       (provisioner root psrad_files (psrad_files ++ psrad_files), w4)) ∧
    fs w2 = fs w0 ∧ fs w4 = fs w0.
Proof.
  intros Hfree.
  assert (Hlinked : ∀ p, p ∈ psrad_files →
            removable (link_all root psrad_files (fs w0)) p).
  { intros p Hp. exists (alias root p). split; [|done].
    apply link_all_lookup; [apply NoDup_psrad_files|done]. }
  assert (Hok : ∀ f, f ∈ psrad_files →
            fs w0 !! f = None ∨ isfile (fs w0) f = true)
    by (intros f Hf; left; by apply Hfree).
  (* first scope *)
  pose proof (enter_ok root [] w0 Hok) as Hrun1.
  rewrite (missing_all_absent _ _ Hfree) in Hrun1. cbn [app] in Hrun1.
  set (w1 := {| environ := environ w0;
                fs := link_all root psrad_files (fs w0);
                log := log w0 ++
                       ((λ f, (DEBUG, "Create symlink " +:+ f)) <$>
                        psrad_files);
                syscalls := syscalls w0 ++
                            enter_trace root (fs w0) psrad_files |})
    in Hrun1.
  exists w1. eexists. eexists. eexists. split; [exact Hrun1|].
  pose proof (remove_loop_ok psrad_files
                (provisioner root psrad_files psrad_files) w1
                NoDup_psrad_files Hlinked) as Hrun2.
  unfold w1 in Hrun2 at 2 3 4 5. cbn [environ fs log syscalls] in Hrun2.
  rewrite (unlink_link_all _ _ _ Hfree) in Hrun2.
  split; [exact Hrun2|].
  (* second scope *)
  split.
  { rewrite enter_ok by done. cbn [environ fs log syscalls].
    by rewrite (missing_all_absent _ _ Hfree). }
  split.
  { rewrite exit_eq. cbn [provisioner _created_files].
    rewrite remove_loop_app, (remove_loop_ok psrad_files)
      by (done || apply NoDup_psrad_files).
    cbn [environ fs log syscalls]. rewrite (unlink_link_all _ _ _ Hfree).
    unfold psrad_files at 1. rewrite remove_loop_cons. cbn zeta. cbn [fs].
    by rewrite Hfree by left. }
  done.
Qed.

Lemma instance_reuse_fails_on_second_exit_witness :
  let s2 := (__exit__ (__enter__ (provisioner "/data/psrad" psrad_files [],
                                  w_empty)).2).2 in
  (__exit__ (__enter__ s2).2).1
  = Raise (FileNotFoundError "ECHAM6_CldOptProps.nc").
Proof.
  intros s2.
  destruct (instance_reuse_fails_on_second_exit "/data/psrad" w_empty)
    as (w1 & w2 & w3 & w4 & H1 & H2 & H3 & H4 & _).
  - intros g Hg. unfold psrad_files in Hg.
    repeat (apply elem_of_cons in Hg as [->|Hg]);
      [..|by apply elem_of_nil in Hg]; vm_compute; reflexivity.
  - unfold s2. rewrite H1. cbn [snd]. rewrite H2. cbn [snd].
    rewrite H3. cbn [snd]. by rewrite H4.
Defined.

(** X9: without the [PSRAD_PATH] setting the wrapped call raises the
    [KeyError] of the constructor: [func] is not called, nothing is looked
    up or created in the working directory, and one ERROR record is
    logged. *)
Theorem wrapper_without_resource_root {A B} (func : A → py world B)
    (args : A) w :
  environ w !! "PSRAD_PATH" = None →
  with_psrad_symlinks func args w =
  (Raise (KeyError "PSRAD_PATH"),
   {| environ := environ w; fs := fs w;
      log := log w ++ [(ERROR, "Path to PSRAD directory not set.")];
      syscalls := syscalls w |}).
Proof.
  intros Henv.
  unfold with_psrad_symlinks, func_wrapper, with_PsradSymlinks.
  by rewrite init_eq, Henv.
Qed.

Lemma wrapper_without_resource_root_witness :
  with_psrad_symlinks successor 41 w_unset =
  (Raise (KeyError "PSRAD_PATH"),
   World ∅ ∅ [(ERROR, "Path to PSRAD directory not set.")] []).
Proof.
  by rewrite (wrapper_without_resource_root successor 41 w_unset)
    by (vm_compute; reflexivity).
Defined.

(** X10: with [PSRAD_PATH] set to the empty string the constructor succeeds,
    and [os.path.join] gives each alias its own name as target: from a
    working directory without the four names, after [__enter__] every
    required name is a link to itself and does not resolve to a file. *)
Theorem empty_resource_root_links_to_itself w :
  environ w !! "PSRAD_PATH" = Some "" →
  (∀ f, f ∈ psrad_files → fs w !! f = None) →
  ∃ self0 w1,
    __init__ w = (Return self0, w) ∧
    __enter__ (self0, w)
    = (Return tt, (provisioner "" psrad_files psrad_files, w1)) ∧
    ∀ f, f ∈ psrad_files →
         fs w1 !! f = Some (Symlink f) ∧ isfile (fs w1) f = false.
Proof.
  intros Henv Hfree. rewrite init_eq, Henv.
  assert (Hrun := enter_ok "" [] w).
  lapply Hrun; [clear Hrun; intros Hrun | intros f Hf; left; by apply Hfree].
  rewrite (missing_all_absent _ _ Hfree) in Hrun. cbn [app] in Hrun.
  eexists _, _. split_and!; [done|exact Hrun|]. cbn [fs].
  intros f Hf.
  assert (Hself : link_all "" psrad_files (fs w) !! f = Some (Symlink f)).
  { rewrite link_all_lookup by (done || apply NoDup_psrad_files).
    unfold psrad_files in Hf.
    repeat (apply elem_of_cons in Hf as [->|Hf]);
      [..|by apply elem_of_nil in Hf]; reflexivity. }
  split; [done|]. unfold isfile.
  assert (Hloop : ∀ fuel,
            stat_follow fuel (link_all "" psrad_files (fs w)) f = None).
  { induction fuel as [|fuel IH]; cbn [stat_follow]; by rewrite Hself. }
  by rewrite Hloop.
Qed.

Lemma empty_resource_root_links_to_itself_witness :
  isfile (fs (__enter__ (provisioner "" psrad_files [],
                         w_empty_root)).2.2) "rrtmg_lw.nc" = false.
Proof.
  destruct (empty_resource_root_links_to_itself w_empty_root)
    as (self0 & w1 & Hinit & Henter & Hall).
  - by vm_compute.
  - intros g Hg. unfold psrad_files in Hg.
    repeat (apply elem_of_cons in Hg as [->|Hg]);
      [..|by apply elem_of_nil in Hg]; vm_compute; reflexivity.
  - assert (self0 = provisioner "" psrad_files []) as ->.
    { revert Hinit. vm_compute. by intros [= <-]. }
    rewrite Henter. cbn [snd]. apply Hall. right. left.
Defined.


(** ** More facts about the timestep append *)

Section netcdf_more.
Context {value : Type}.
Implicit Types (ds : @Dataset value) (v : @NcVariable value) (t : nat)
  (var : string).

Lemma dict_lookup_app_l (d1 d2 : list (string * @payload value)) var :
  var ∈ d1.*1 → dict_lookup (d1 ++ d2) var = dict_lookup d1 var.
Proof.
  induction d1 as [|[k q] d1 IH]; intros Hin.
  - by apply elem_of_nil in Hin.
  - simpl. destruct (decide (k = var)); [done|].
    apply IH. cbn in Hin. by apply elem_of_cons in Hin as [?|?].
Qed.

(** An iteration of the loop only reads the entry of its own key. *)
Lemma append_body_ext (data data' : list (string * @payload value)) t var :
  dict_lookup data var = dict_lookup data' var →
  append_timestep_netcdf_body data t var
  = append_timestep_netcdf_body data' t var.
Proof.
  intros Heq. unfold append_timestep_netcdf_body, dict_getitem.
  by rewrite Heq.
Qed.
End netcdf_more.

(** The successful run of [append_timestep_netcdf], for use in sequences of
    calls. *)
Lemma append_timestep_netcdf_ok {value : Type} filename
    (data : list (string * payload)) (timestamp : value) st ds t tv pd :
  nc_files st !! filename = Some ds →
  dimensions ds !! "time" = Some {| dim_size := t; isunlimited := true |} →
  variables ds !! "time" = Some tv →
  var_dimensions tv = ["time"] →
  dimensions ds !! "plev" = Some pd →
  NoDup data.*1 →
  (∀ var p, (var, p) ∈ data →
     ∃ v, variables ds !! var = Some v ∧
          (var_dimensions v = ["time"; "plev"] →
           ∃ l, values_of p = array l ∧ length l = dim_size pd)) →
  ∃ ds',
    append_timestep_netcdf filename data timestamp st =
      (Return tt,
       {| nc_files := <[filename := ds']> (nc_files st);
          root_log := root_log st ++ [append_message filename] |}) ∧
    dimensions ds' =
      <["time" := {| dim_size := S t; isunlimited := true |}]> (dimensions ds) ∧
    variables ds' !! "time" =
      Some {| var_dimensions := ["time"];
              var_data := <[[t] := timestamp]> (var_data tv) |} ∧
    (∀ var p v l,
       (var, p) ∈ data →
       variables ds !! var = Some v →
       var_dimensions v = ["time"; "plev"] →
       values_of p = array l →
       ∃ v', variables ds' !! var = Some v' ∧
             var_dimensions v' = ["time"; "plev"] ∧
             (∀ j, j < length l → var_data v' !! [t; j] = l !! j) ∧
             (∀ c, c !! 0 ≠ Some t → var_data v' !! c = var_data v !! c)) ∧
    (∀ name v,
       name ≠ "time" →
       variables ds !! name = Some v →
       var_dimensions v ≠ ["time"; "plev"] ∨ name ∉ data.*1 →
       variables ds' !! name = Some v).
Proof.
  intros Hfile Hdim Htv Htd Hpd Hnd Hdata.
  rewrite (append_timestep_netcdf_eq _ _ _ _ _ _ _ Hfile Hdim Htv Htd).
  set (ds1 := time_appended t timestamp tv ds).
  assert (Hdim1 : dimensions ds1 !! "time"
                  = Some {| dim_size := S t; isunlimited := true |})
    by apply lookup_insert_eq.
  assert (Hpd1 : dimensions ds1 !! "plev" = Some pd)
    by (unfold ds1, time_appended; cbn [dimensions];
        by rewrite lookup_insert_ne).
  assert (Hvar1 : ∀ name, name ≠ "time" →
            variables ds1 !! name = variables ds !! name).
  { intros name Hne. unfold ds1, time_appended. cbn [variables].
    by rewrite lookup_insert_ne. }
  assert (Htv1 : variables ds1 !! "time"
                 = Some {| var_dimensions := ["time"];
                           var_data := <[[t] := timestamp]> (var_data tv) |})
    by apply lookup_insert_eq.
  destruct (append_loop_ok data t data.*1 ds1
              (root_log st ++ [append_message filename])
              {| dim_size := S t; isunlimited := true |})
    as (ds' & Hrun & Hdims & Hframe & Hrows); [done|done|cbn; lia| |].
  { intros var Hin. apply list_elem_of_fmap in Hin as ([var' p] & -> & Hin).
    cbn [fst]. destruct (Hdata var' p Hin) as (v & Hv & Hfit).
    destruct (decide (var' = "time")) as [->|Hne].
    - eexists. split; [exact Htv1|]. done.
    - exists v. split; [by rewrite Hvar1|]. intros Hd.
      destruct (Hfit Hd) as (l & Hl & Hlen).
      exists p, pd. split_and!; [by apply dict_lookup_elem|done| |].
      + rewrite Hl. unfold slice_length. by destruct (isunlimited pd).
      + rewrite Hl. unfold broadcastable. cbn [last]. rewrite Hlen.
        rewrite (bool_decide_eq_true_2 (Some _ = Some _)) by done.
        apply orb_true_r. }
  unfold append_message in *. rewrite Hrun.
  exists ds'. destruct Hframe as (_ & _ & Hvars).
  split_and!.
  - done.
  - by rewrite Hdims.
  - specialize (Hvars "time"). rewrite Htv1 in Hvars.
    destruct (variables ds' !! "time") as [v'|]; [|done].
    destruct Hvars as (_ & Hsame & _). rewrite Hsame; [done|by left].
  - intros var p v l Hin Hv Hd Hl.
    assert (Hne : var ≠ "time") by (intros ->; congruence).
    destruct (Hdata var p Hin) as (v0 & Hv0 & Hfit).
    assert (v0 = v) as -> by congruence.
    destruct (Hfit Hd) as (l' & Hl' & Hlen).
    assert (l' = l) as -> by congruence.
    specialize (Hvars var). rewrite Hvar1, Hv in Hvars by done.
    destruct (variables ds' !! var) as [v'|] eqn:Hv'; [|done].
    destruct Hvars as (Hd' & _ & Hcells).
    exists v'. split_and!; [done|congruence| |done].
    intros j Hj.
    destruct (lookup_lt_is_Some_2 l j Hj) as [a Ha]. rewrite Ha.
    destruct (Hrows var v p pd j a) as (v'' & Hv'' & Hcell).
    + apply list_elem_of_fmap. by exists (var, p).
    + by rewrite Hvar1.
    + done.
    + by apply dict_lookup_elem.
    + done.
    + lia.
    + by rewrite Hl, element_array_row.
    + congruence.
  - intros name v Hne Hv Hout.
    specialize (Hvars name). rewrite Hvar1, Hv in Hvars by done.
    destruct (variables ds' !! name) as [v'|]; [|done].
    destruct Hvars as (_ & Hsame & _). by rewrite Hsame.
Qed.

(** X11: [append_timestep_netcdf] on a file without a time axis.  Opening in
    append mode creates a file that does not exist: the call then leaves an
    empty file of that name and the log record, and raises [KeyError] for
    [time].  On an existing file that has no [time] dimension or no [time]
    variable it raises [KeyError] for [time] after the log record, and every
    file is as it was. *)
Theorem append_fails_without_time_axis {value : Type} filename
    (data : list (string * payload)) (timestamp : value) st :
  (nc_files st !! filename = None →
   append_timestep_netcdf filename data timestamp st
   = (Raise (KeyError "time"),
      {| nc_files := <[filename := empty_dataset]> (nc_files st);
         root_log := root_log st ++ [append_message filename] |})) ∧
  (∀ ds,
     nc_files st !! filename = Some ds →
     dimensions ds !! "time" = None ∨ variables ds !! "time" = None →
     append_timestep_netcdf filename data timestamp st
     = (Raise (KeyError "time"),
        {| nc_files := nc_files st;
           root_log := root_log st ++ [append_message filename] |})).
Proof.
  split.
  - intros Hfile. unfold append_timestep_netcdf, with_Dataset.
    by rewrite Hfile.
  - intros ds Hfile Hmissing.
    unfold append_timestep_netcdf, with_Dataset. rewrite Hfile.
    cbn [default from_option id]. cbv zeta.
    unfold mbind, py_bind, logging_debug.
    unfold nc_call at 1, dimension_size.
    destruct (dimensions ds !! "time") as [d|] eqn:Hd.
    + destruct Hmissing as [?|Hv]; [done|].
      unfold nc_call at 1, variable_setitem. rewrite Hv.
      by rewrite insert_id.
    + by rewrite insert_id.
Qed.

Lemma append_fails_without_time_axis_witness :
  append_timestep_netcdf "nowhere.nc" sample_data 12%Z sample_store
  = (Raise (KeyError "time"),
     {| nc_files := <["nowhere.nc" := empty_dataset]> (nc_files sample_store);
        root_log := [append_message "nowhere.nc"] |}) ∧
  append_timestep_netcdf "out.nc" sample_data 12%Z sample_store_no_time
  = (Raise (KeyError "time"),
     {| nc_files := nc_files sample_store_no_time;
        root_log := [append_message "out.nc"] |}).
Proof.
  split.
  - apply (append_fails_without_time_axis "nowhere.nc" sample_data 12%Z
             sample_store). by vm_compute.
  - eapply (proj2 (append_fails_without_time_axis "out.nc" sample_data 12%Z
                     sample_store_no_time)).
    + vm_compute. reflexivity.
    + left. by vm_compute.
Defined.

(** X12: on a file with a growable time axis of length [t], whatever the
    dictionary and whether the call returns or raises,
    [append_timestep_netcdf] creates and deletes no variable, changes no
    variable's dimensions, changes no dimension other than [time] and
    [plev], never shortens [plev] and lengthens it only when it is
    unlimited, leaves the other files alone, and changes no cell outside
    row [t]: the time steps already in the file are never overwritten. *)
Theorem append_keeps_earlier_rows {value : Type} filename
    (data : list (string * payload)) (timestamp : value) st ds t tv :
  nc_files st !! filename = Some ds →
  dimensions ds !! "time" = Some {| dim_size := t; isunlimited := true |} →
  variables ds !! "time" = Some tv →
  var_dimensions tv = ["time"] →
  ∃ r ds' lg,
    append_timestep_netcdf filename data timestamp st
    = (r, {| nc_files := <[filename := ds']> (nc_files st); root_log := lg |}) ∧
    (∀ d, d ≠ "time" → d ≠ "plev" →
       dimensions ds' !! d = dimensions ds !! d) ∧
    (∀ pd, dimensions ds !! "plev" = Some pd →
       ∃ pd', dimensions ds' !! "plev" = Some pd' ∧
              isunlimited pd' = isunlimited pd ∧
              dim_size pd ≤ dim_size pd' ∧
              (isunlimited pd = false → pd' = pd)) ∧
    (∀ name, variables ds !! name = None → variables ds' !! name = None) ∧
    (∀ name v,
       variables ds !! name = Some v →
       ∃ v', variables ds' !! name = Some v' ∧
             var_dimensions v' = var_dimensions v ∧
             ∀ c, c !! 0 ≠ Some t → var_data v' !! c = var_data v !! c).
Proof.
  intros Hfile Hdim Htv Htd.
  rewrite (append_timestep_netcdf_eq _ _ _ _ _ _ _ Hfile Hdim Htv Htd).
  set (ds1 := time_appended t timestamp tv ds).
  assert (Hdim1 : dimensions ds1 !! "time"
                  = Some {| dim_size := S t; isunlimited := true |})
    by apply lookup_insert_eq.
  destruct (for_in data.*1 (append_timestep_netcdf_body data t) _)
    as [r [ds' lg']] eqn:Hrun.
  apply (append_loop_rows_assigned _ _ _ _ _ _ _ _ _ Hdim1) in Hrun
    as (-> & Hdims & Hplev & Hvars); [|cbn; lia].
  exists r, ds'. eexists. split_and!; [done|..].
  - intros d Hd Hd'. rewrite Hdims by done.
    unfold ds1, time_appended. cbn [dimensions].
    by rewrite lookup_insert_ne.
  - intros pd Hpd. unfold ds1, time_appended in Hplev.
    cbn [dimensions] in Hplev.
    rewrite lookup_insert_ne, Hpd in Hplev by done.
    destruct (dimensions ds' !! "plev") as [pd'|]; [|done].
    by exists pd'.
  - intros name Hnone. assert (name ≠ "time") by congruence.
    specialize (Hvars name). unfold ds1, time_appended in Hvars.
    cbn [variables] in Hvars.
    rewrite lookup_insert_ne, Hnone in Hvars by done.
    by destruct (variables ds' !! name).
  - intros name v Hv. specialize (Hvars name).
    unfold ds1, time_appended in Hvars. cbn [variables] in Hvars.
    destruct (decide (name = "time")) as [->|Hne].
    + rewrite lookup_insert_eq in Hvars.
      destruct (variables ds' !! "time") as [v'|]; [|done].
      destruct Hvars as (Hd & _ & Hcells). cbn in Hd, Hcells.
      assert (v = tv) as -> by congruence.
      exists v'. split_and!; [done|congruence|].
      intros c Hc. rewrite Hcells by done.
      apply lookup_insert_ne. intros <-. by apply Hc.
    + rewrite lookup_insert_ne, Hv in Hvars by done.
      destruct (variables ds' !! name) as [v'|]; [|done].
      destruct Hvars as (Hd & _ & Hcells). by exists v'.
Qed.

Lemma append_keeps_earlier_rows_witness :
  ∃ ds',
    nc_files (append_timestep_netcdf "out.nc" sample_data_unknown 12%Z
                sample_store).2 !! "out.nc" = Some ds' ∧
    ∃ v', variables ds' !! "T" = Some v' ∧
          var_data v' !! [1; 2] = Some 299%Z.
Proof.
  destruct (append_keeps_earlier_rows "out.nc" sample_data_unknown 12%Z
              sample_store sample_dataset 2
              {| var_dimensions := ["time"];
                 var_data := {[ [0] := 0%Z; [1] := 6%Z ]} |})
    as (r & ds' & lg & Hrun & _ & _ & _ & Hvars);
    [vm_compute; reflexivity..|].
  exists ds'. rewrite Hrun. cbn [snd nc_files].
  split; [apply lookup_insert_eq|].
  destruct (Hvars "T" {| var_dimensions := ["time"; "plev"];
                         var_data := {[ [0; 0] := 288%Z; [0; 1] := 293%Z;
                                        [0; 2] := 298%Z; [1; 0] := 289%Z;
                                        [1; 1] := 294%Z; [1; 2] := 299%Z ]} |})
    as (v' & Hv' & _ & Hcells); [vm_compute; reflexivity|].
  exists v'. split; [done|]. rewrite Hcells by (cbn; congruence).
  vm_compute. reflexivity.
Defined.

(** X13: no partial write is undone.  When the keys before [var] go through,
    [var] is a plain name (not empty, without [/]) and the file has no
    variable [var], the call raises [IndexError] for [var] and leaves the
    store exactly as the call with only the entries before [var] leaves it:
    the timestamp and the rows of the earlier keys are written, the time
    axis is one longer, and the later keys are not looked at. *)
Theorem append_stops_at_unknown_variable {value : Type} filename
    (d1 d2 : list (string * payload)) var p (timestamp : value)
    st ds t tv st1 :
  nc_files st !! filename = Some ds →
  dimensions ds !! "time" = Some {| dim_size := t; isunlimited := true |} →
  variables ds !! "time" = Some tv →
  var_dimensions tv = ["time"] →
  NoDup (d1 ++ (var, p) :: d2).*1 →
  has_sep var = false →
  var ≠ "" →
  variables ds !! var = None →
  append_timestep_netcdf filename d1 timestamp st = (Return tt, st1) →
  append_timestep_netcdf filename (d1 ++ (var, p) :: d2) timestamp st
  = (Raise (IndexError var), st1) ∧
  ∃ ds1, nc_files st1 !! filename = Some ds1 ∧
         dimensions ds1 !! "time"
         = Some {| dim_size := S t; isunlimited := true |} ∧
         variables ds1 !! "time"
         = Some {| var_dimensions := ["time"];
                   var_data := <[[t] := timestamp]> (var_data tv) |}.
Proof.
  intros Hfile Hdim Htv Htd Hnd Hplain Hnonempty Hnone.
  rewrite !(append_timestep_netcdf_eq _ _ _ _ _ _ _ Hfile Hdim Htv Htd).
  set (ds0 := time_appended t timestamp tv ds).
  set (lg0 := root_log st ++ _).
  assert (Hdim0 : dimensions ds0 !! "time"
                  = Some {| dim_size := S t; isunlimited := true |})
    by apply lookup_insert_eq.
  destruct (for_in d1.*1 (append_timestep_netcdf_body d1 t) (ds0, lg0))
    as [r [ds1 lg1]] eqn:Hrun.
  intros [= -> <-].
  pose proof Hrun as Hframe.
  apply (append_loop_rows_assigned _ _ _ _ _ _ _ _ _ Hdim0) in Hframe
    as (-> & Hdims & _ & Hvars); [|cbn; lia].
  assert (Hne : var ≠ "time") by congruence.
  assert (Hnone1 : variables ds1 !! var = None).
  { specialize (Hvars var). unfold ds0, time_appended in Hvars.
    cbn [variables] in Hvars.
    rewrite lookup_insert_ne, Hnone in Hvars by done.
    by destruct (variables ds1 !! var). }
  split.
  - rewrite fmap_app, for_in_app.
    rewrite (for_in_ext _ _ (append_timestep_netcdf_body d1 t)).
    + rewrite Hrun. cbn [fmap list_fmap fst for_in].
      unfold mbind, py_bind.
      unfold append_timestep_netcdf_body at 1, mbind, py_bind.
      unfold nc_call at 1. by rewrite dataset_getitem_unknown.
    + intros k Hk. apply append_body_ext. by apply dict_lookup_app_l.
  - exists ds1. cbn [nc_files]. split_and!.
    + apply lookup_insert_eq.
    + by rewrite Hdims.
    + specialize (Hvars "time"). unfold ds0, time_appended in Hvars.
      cbn [variables] in Hvars. rewrite lookup_insert_eq in Hvars.
      destruct (variables ds1 !! "time") as [v'|]; [|done].
      destruct Hvars as (_ & Hsame & _). rewrite Hsame; [done|by left].
Qed.

Lemma append_stops_at_unknown_variable_witness :
  append_timestep_netcdf "out.nc" sample_data_unknown 12%Z sample_store
  = (Raise (IndexError "Q"),
     (append_timestep_netcdf "out.nc"
        [("T", PlainArray (array [290; 295; 300]%Z))] 12%Z sample_store).2).
Proof.
  apply (append_stops_at_unknown_variable "out.nc"
           [("T", PlainArray (array [290; 295; 300]%Z))]
           [("X", HasValues (array [900; 400; 50]%Z))]
           "Q" (PlainArray (array [1; 2; 3]%Z)) 12%Z sample_store
           sample_dataset 2
           {| var_dimensions := ["time"];
              var_data := {[ [0] := 0%Z; [1] := 6%Z ]} |}).
  - vm_compute. reflexivity.
  - vm_compute. reflexivity.
  - vm_compute. reflexivity.
  - vm_compute. reflexivity.
  - apply (bool_decide_unpack _). by vm_compute.
  - reflexivity.
  - done.
  - vm_compute. reflexivity.
  - vm_compute. reflexivity.
Defined.

(** X14: two calls in a row append two time steps.  On a file with a growable
    time axis of length [t], when both dictionaries fit the file, both calls
    return; the time axis then has length [t + 2], the time variable holds
    the first timestamp at index [t] and the second at index [t + 1], and a
    variable over [(time, plev)] holds in row [t] the values the first call
    was given for it and in row [t + 1] those the second call was given. *)
Theorem appends_compose {value : Type} filename
    (data1 data2 : list (string * payload)) (ts1 ts2 : value)
    st ds t tv pd :
  nc_files st !! filename = Some ds →
  dimensions ds !! "time" = Some {| dim_size := t; isunlimited := true |} →
  variables ds !! "time" = Some tv →
  var_dimensions tv = ["time"] →
  dimensions ds !! "plev" = Some pd →
  NoDup data1.*1 →
  NoDup data2.*1 →
  (∀ var p, (var, p) ∈ data1 ++ data2 →
     ∃ v, variables ds !! var = Some v ∧
          (var_dimensions v = ["time"; "plev"] →
           ∃ l, values_of p = array l ∧ length l = dim_size pd)) →
  ∃ st1 st2 ds2 tv2,
    append_timestep_netcdf filename data1 ts1 st = (Return tt, st1) ∧
    append_timestep_netcdf filename data2 ts2 st1 = (Return tt, st2) ∧
    nc_files st2 !! filename = Some ds2 ∧
    dimensions ds2 !! "time"
    = Some {| dim_size := S (S t); isunlimited := true |} ∧
    variables ds2 !! "time" = Some tv2 ∧
    var_data tv2 !! [t] = Some ts1 ∧
    var_data tv2 !! [S t] = Some ts2 ∧
    (∀ var p v l j,
       (var, p) ∈ data1 →
       variables ds !! var = Some v →
       var_dimensions v = ["time"; "plev"] →
       values_of p = array l →
       j < length l →
       ∃ v2, variables ds2 !! var = Some v2 ∧ var_data v2 !! [t; j] = l !! j) ∧
    (∀ var p v l j,
       (var, p) ∈ data2 →
       variables ds !! var = Some v →
       var_dimensions v = ["time"; "plev"] →
       values_of p = array l →
       j < length l →
       ∃ v2, variables ds2 !! var = Some v2 ∧
             var_data v2 !! [S t; j] = l !! j).
Proof.
  intros Hfile Hdim Htv Htd Hpd Hnd1 Hnd2 Hdata.
  destruct (append_timestep_netcdf_ok filename data1 ts1 st ds t tv pd)
    as (ds1 & Hrun1 & Hdims1 & Htime1 & Hrows1 & Hrest1); [done..| |].
  { intros var p Hin. apply Hdata, elem_of_app. by left. }
  set (st1 := {| nc_files := <[filename := ds1]> (nc_files st);
                 root_log := root_log st ++ [append_message filename] |})
    in Hrun1.
  (* every variable of the file is still there, with its dimensions *)
  assert (Hstill : ∀ var p v,
            (var, p) ∈ data1 ++ data2 →
            variables ds !! var = Some v →
            ∃ v1, variables ds1 !! var = Some v1 ∧
                  var_dimensions v1 = var_dimensions v ∧
                  (var_dimensions v ≠ ["time"; "plev"] → var ≠ "time" →
                   v1 = v)).
  { intros var p v Hin Hv.
    destruct (decide (var = "time")) as [->|Hne].
    { eexists. split; [exact Htime1|]. split; [|done].
      cbn. congruence. }
    destruct (decide (var_dimensions v = ["time"; "plev"])) as [Hd|Hd].
    - destruct (decide (var ∈ data1.*1)) as [Hin1|Hout1].
      + apply list_elem_of_fmap in Hin1 as ([var' p1] & Heq & Hin1).
        cbn in Heq. subst var'.
        destruct (Hdata var p1) as (v0 & Hv0 & Hfit);
          [apply elem_of_app; by left|].
        assert (v0 = v) as -> by congruence.
        destruct (Hfit Hd) as (l & Hl & _).
        destruct (Hrows1 var p1 v l Hin1 Hv Hd Hl) as (v1 & Hv1 & Hd1 & _).
        exists v1. split_and!; [done|congruence|done].
      + exists v. split_and!; [|done|done].
        apply Hrest1; [done|done|by right].
    - exists v. split_and!; [|done|done].
      apply Hrest1; [done|done|by left]. }
  destruct (append_timestep_netcdf_ok filename data2 ts2 st1 ds1 (S t)
              {| var_dimensions := ["time"];
                 var_data := <[[t] := ts1]> (var_data tv) |} pd)
    as (ds2 & Hrun2 & Hdims2 & Htime2 & Hrows2 & Hrest2).
  { apply lookup_insert_eq. }
  { rewrite Hdims1. apply lookup_insert_eq. }
  { done. }
  { done. }
  { rewrite Hdims1. by rewrite lookup_insert_ne. }
  { done. }
  { intros var p Hin.
    destruct (Hdata var p) as (v & Hv & Hfit); [apply elem_of_app; by right|].
    destruct (Hstill var p v) as (v1 & Hv1 & Hd1 & _);
      [apply elem_of_app; by right|done|].
    exists v1. split; [done|]. rewrite Hd1. done. }
  exists st1. eexists. exists ds2. eexists.
  split_and!; [exact Hrun1|exact Hrun2|apply lookup_insert_eq|..].
  - rewrite Hdims2. apply lookup_insert_eq.
  - exact Htime2.
  - cbn [var_data]. rewrite lookup_insert_ne by (intros [= ?]; lia).
    apply lookup_insert_eq.
  - cbn [var_data]. apply lookup_insert_eq.
  - intros var p v l j Hin Hv Hd Hl Hj.
    destruct (Hrows1 var p v l Hin Hv Hd Hl) as (v1 & Hv1 & Hd1 & Hrow & _).
    assert (Hne : var ≠ "time") by (intros ->; congruence).
    destruct (decide (var ∈ data2.*1)) as [Hin2|Hout2].
    + apply list_elem_of_fmap in Hin2 as ([var' p2] & Heq & Hin2).
      cbn in Heq. subst var'.
      destruct (Hdata var p2) as (v0 & Hv0 & Hfit);
        [apply elem_of_app; by right|].
      assert (v0 = v) as -> by congruence.
      destruct (Hfit Hd) as (l2 & Hl2 & _).
      destruct (Hrows2 var p2 v1 l2 Hin2 Hv1 Hd1 Hl2)
        as (v2 & Hv2 & _ & _ & Hkeep).
      exists v2. split; [done|]. rewrite Hkeep by (cbn; intros [= ?]; lia).
      by apply Hrow.
    + exists v1. split; [|by apply Hrow].
      apply Hrest2; [done|done|by right].
  - intros var p v l j Hin Hv Hd Hl Hj.
    destruct (Hstill var p v) as (v1 & Hv1 & Hd1 & _);
      [apply elem_of_app; by right|done|].
    destruct (Hrows2 var p v1 l Hin Hv1) as (v2 & Hv2 & _ & Hrow & _);
      [congruence|done|].
    exists v2. split; [done|]. by apply Hrow.
Qed.

Lemma appends_compose_witness :
  ∃ st1 st2,
    append_timestep_netcdf "out.nc" sample_data 12%Z sample_store
    = (Return tt, st1) ∧
    append_timestep_netcdf "out.nc" sample_data_next 18%Z st1
    = (Return tt, st2).
Proof.
  destruct (appends_compose "out.nc" sample_data sample_data_next 12%Z 18%Z
              sample_store sample_dataset 2
              {| var_dimensions := ["time"];
                 var_data := {[ [0] := 0%Z; [1] := 6%Z ]} |}
              {| dim_size := 3; isunlimited := false |})
    as (st1 & st2 & _ & _ & Hrun1 & Hrun2 & _);
    [vm_compute; reflexivity..| | | |].
  - apply (bool_decide_unpack _). by vm_compute.
  - apply (bool_decide_unpack _). by vm_compute.
  - intros var p Hin. unfold sample_data, sample_data_next in Hin.
    cbn [app] in Hin.
    repeat (apply elem_of_cons in Hin as [[= -> ->]|Hin]);
      [..|by apply elem_of_nil in Hin];
      (eexists; split; [vm_compute; reflexivity|]; intros _; by eexists).
  - by exists st1, st2.
Defined.

(** X15: a time dimension of fixed length cannot be extended: when the [time]
    dimension is not unlimited, the assignment of the timestamp at the index
    one past its end raises, and every file is as it was. *)
Theorem append_needs_unlimited_time {value : Type} filename
    (data : list (string * payload)) (timestamp : value) st ds t tv :
  nc_files st !! filename = Some ds →
  dimensions ds !! "time" = Some {| dim_size := t; isunlimited := false |} →
  variables ds !! "time" = Some tv →
  var_dimensions tv = ["time"] →
  ∃ e,
    append_timestep_netcdf filename data timestamp st
    = (Raise e,
       {| nc_files := nc_files st;
          root_log := root_log st ++ [append_message filename] |}).
Proof.
  intros Hfile Hdim Htv Htd. eexists.
  unfold append_timestep_netcdf, with_Dataset. rewrite Hfile.
  cbn [default from_option id]. cbv zeta.
  unfold mbind, py_bind, logging_debug.
  unfold nc_call at 1, dimension_size. rewrite Hdim. cbn [dim_size].
  unfold nc_call at 1, variable_setitem. rewrite Htv, Htd.
  cbn [length mapM]. rewrite bool_decide_eq_false_2 by lia.
  rewrite Hdim. cbn. rewrite bool_decide_eq_false_2 by lia. cbn.
  by rewrite insert_id.
Qed.

Lemma append_needs_unlimited_time_witness :
  ∃ e,
    append_timestep_netcdf "out.nc" sample_data 12%Z sample_store_fixed
    = (Raise e,
       {| nc_files := nc_files sample_store_fixed;
          root_log := [append_message "out.nc"] |}).
Proof.
  apply (append_needs_unlimited_time "out.nc" sample_data 12%Z
           sample_store_fixed
           {| dimensions :=
                <["time" := {| dim_size := 2; isunlimited := false |}]>
                  (dimensions sample_dataset);
              variables := variables sample_dataset |} 2
           {| var_dimensions := ["time"];
              var_data := {[ [0] := 0%Z; [1] := 6%Z ]} |});
    vm_compute; reflexivity.
Defined.
